(** * Research pipeline of app.py: completion client, search tool, two-stage graph

    A shallow embedding of the orchestration core of [app.py]:
    [LMStudioLLM._call], [TavilySearchTool._run], the two graph nodes of
    [ResearchGraph] and [ResearchGraph.research_topic].  The two HTTP services
    are oracles of a [world]; every request, and every [time.sleep], is recorded
    in an event log, and Python exceptions are values of an error monad. *)

From Stdlib Require Import String Ascii List ZArith Lia Bool DecimalString.
Import ListNotations.
Local Open Scope string_scope.
Local Open Scope Z_scope.

(** ** Python strings

    A [str] is a Rocq [string], one [ascii] per character. *)

Definition nl : string := String "010"%char EmptyString.
Definition dquote : string := String "034"%char EmptyString.

(** [str(n)] for an [int]. *)
Definition str_of_int (z : Z) : string := NilZero.string_of_int (Z.to_int z).

(** [sub in s]. *)
Fixpoint contains (sub s : string) : bool :=
  prefix sub s ||
  match s with
  | EmptyString => false
  | String _ s' => contains sub s'
  end.

Definition lower_char (c : ascii) : ascii :=
  let n := nat_of_ascii c in
  if (Nat.leb 65 n && Nat.leb n 90)%bool then ascii_of_nat (n + 32) else c.

(** [s.lower()]. *)
Fixpoint lower (s : string) : string :=
  match s with
  | EmptyString => EmptyString
  | String c s' => String (lower_char c) (lower s')
  end.

(** [sep.join(ls)]. *)
Definition join (sep : string) (ls : list string) : string := String.concat sep ls.

(** The lines of a triple-quoted literal, joined by newlines. *)
Definition lines (ls : list string) : string := join nl ls.

(** [s[:n]]. *)
Definition slice_to (n : nat) (s : string) : string := substring 0 n s.

(** ** Exceptions and results

    Only subclasses of [Exception] are modelled.  [RequestException] stands for
    the members of [requests.exceptions] other than [Timeout] and
    [ConnectionError]; [exn_str] is [str(e)]. *)

Inductive exn_class : Type :=
| Timeout
| ConnectionError
| RequestException
| KeyError
| IndexError
| TypeError
| ValidationError
| OtherException.

Record exn : Type := mk_exn { class_of : exn_class; exn_str : string }.

Inductive py_result (A : Type) : Type :=
| Return (a : A)
| Raise (e : exn).
Arguments Return {A} a.
Arguments Raise {A} e.

(** [except requests.exceptions.RequestException] catches the whole family. *)
Definition is_request_exception (c : exn_class) : bool :=
  match c with
  | Timeout | ConnectionError | RequestException => true
  | _ => false
  end.

(** ** JSON values, as [response.json()] hands them to Python *)

#[warnings="-register-all"]
Inductive json : Type :=
| JNull
| JBool (b : bool)
| JNum (z : Z)
| JStr (s : string)
| JArr (items : list json)
| JObj (members : list (string * json)).

Fixpoint assoc {A : Type} (k : string) (kvs : list (string * A)) : option A :=
  match kvs with
  | [] => None
  | (k', v) :: rest => if String.eqb k k' then Some v else assoc k rest
  end.

Definition not_subscriptable (ty : string) : exn :=
  mk_exn TypeError ("'" ++ ty ++ "' object is not subscriptable").

(** [v[k]] for a string key [k]. *)
Definition subscript_key (v : json) (k : string) : py_result json :=
  match v with
  | JObj members =>
      match assoc k members with
      | Some x => Return x
      | None => Raise (mk_exn KeyError ("'" ++ k ++ "'"))
      end
  | JArr _ => Raise (mk_exn TypeError "list indices must be integers or slices, not str")
  | JStr _ => Raise (mk_exn TypeError "string indices must be integers, not 'str'")
  | JNull => Raise (not_subscriptable "NoneType")
  | JBool _ => Raise (not_subscriptable "bool")
  | JNum _ => Raise (not_subscriptable "int")
  end.

(** [v[0]].  The keys of a decoded JSON object are strings, so [0] is never one. *)
Definition subscript_0 (v : json) : py_result json :=
  match v with
  | JArr (x :: _) => Return x
  | JArr [] => Raise (mk_exn IndexError "list index out of range")
  | JStr (String c _) => Return (JStr (String c EmptyString))
  | JStr EmptyString => Raise (mk_exn IndexError "string index out of range")
  | JObj _ => Raise (mk_exn KeyError "0")
  | JNull => Raise (not_subscriptable "NoneType")
  | JBool _ => Raise (not_subscriptable "bool")
  | JNum _ => Raise (not_subscriptable "int")
  end.

Definition and_then {A B : Type} (r : py_result A) (k : A -> py_result B) : py_result B :=
  match r with
  | Return a => k a
  | Raise e => Raise e
  end.

(** [result["choices"][0]["message"]["content"]] (line 83). *)
Definition message_content (result : json) : py_result json :=
  and_then (subscript_key result "choices") (fun choices =>
  and_then (subscript_0 choices) (fun choice =>
  and_then (subscript_key choice "message") (fun message =>
  subscript_key message "content"))).

(** ** The search provider's body

    A field of the decoded body is absent, [null] or a string; [results] is the
    list of sources (absent, [null] and [[]] are all falsy at line 147).  Bodies
    whose fields hold a JSON number, boolean, list or object are not
    represented: the statements below speak of the bodies of this shape. *)

Inductive field : Type :=
| Absent
| Null
| Text (s : string).

Record source : Type := mk_source { title : field; url : field; content : field }.

Record tavily_data : Type := mk_tavily_data { answer : field; results : list source }.

(** ** The outside world *)

Record response (B : Type) : Type := mk_response {
  status_code : Z;
  text : string;
  json_body : py_result B   (* what [response.json()] gives *)
}.
Arguments mk_response {B}.
Arguments status_code {B}.
Arguments text {B}.
Arguments json_body {B}.

(** A POST either answers or raises. *)
Inductive outcome (B : Type) : Type :=
| Responded (r : response B)
| Failed (e : exn).
Arguments Responded {B} r.
Arguments Failed {B} e.

(** The n-th POST to the completion endpoint with a prompt, and the n-th POST
    to the search provider with a query and [max_results]. *)
Record world : Type := mk_world {
  completion_endpoint : nat -> string -> outcome json;
  search_provider : nat -> string -> Z -> outcome tavily_data
}.

Inductive event : Type :=
| LlmPost (prompt : string)
| Sleep (seconds : Z)
| SearchPost (query : string).

Record effects : Type := mk_effects {
  llm_posts : nat;
  search_posts : nat;
  log : list event
}.

Definition no_effects : effects := mk_effects 0 0 [].

(** ** Computations: state of the effects, and exceptions *)

Definition M (A : Type) : Type := effects -> py_result A * effects.

Definition ret {A : Type} (a : A) : M A := fun s => (Return a, s).

Definition raise {A : Type} (e : exn) : M A := fun s => (Raise e, s).

Definition bind {A B : Type} (m : M A) (k : A -> M B) : M B :=
  fun s =>
    match m s with
    | (Return a, s') => k a s'
    | (Raise e, s') => (Raise e, s')
    end.

Definition lift {A : Type} (r : py_result A) : M A := fun s => (r, s).

(** [try: m  except ...: h e]; the handler decides what it catches. *)
Definition try_with {A : Type} (m : M A) (h : exn -> M A) : M A :=
  fun s =>
    match m s with
    | (Return a, s') => (Return a, s')
    | (Raise e, s') => h e s'
    end.

Notation "x <- m ;; k" := (bind m (fun x => k))
  (at level 61, m at next level, right associativity).
Notation "m ;;; k" := (bind m (fun _ => k))
  (at level 61, right associativity).

Definition llm_post (w : world) (prompt : string) : M (response json) :=
  fun s =>
    let s' := mk_effects (S (llm_posts s)) (search_posts s) (log s ++ [LlmPost prompt]) in
    match completion_endpoint w (llm_posts s) prompt with
    | Responded r => (Return r, s')
    | Failed e => (Raise e, s')
    end.

Definition search_post (w : world) (query : string) (max_results : Z) : M (response tavily_data) :=
  fun s =>
    let s' := mk_effects (llm_posts s) (S (search_posts s)) (log s ++ [SearchPost query]) in
    match search_provider w (search_posts s) query max_results with
    | Responded r => (Return r, s')
    | Failed e => (Raise e, s')
    end.

Definition sleep (seconds : Z) : M unit :=
  fun s => (Return tt, mk_effects (llm_posts s) (search_posts s) (log s ++ [Sleep seconds])).

(** ** LMStudioLLM *)

Record LMStudioLLM : Type := mk_LMStudioLLM {
  base_url : string;
  model : string;
  max_tokens : Z;
  timeout : Z;
  max_retries : Z
}.

(** How one pass through the body of the [for] loop ends. *)
Inductive loop_step : Type :=
| Exit (v : json)      (* [return v] *)
| Continue             (* [continue]: straight to the next attempt *)
| FallThrough.         (* the handler ended: go on below the [try] *)

(** Lines 72-87, the body of the [try]. *)
Definition attempt_try (w : world) (self : LMStudioLLM) (prompt : string) (attempt : Z)
  : M loop_step :=
  response <- llm_post w prompt ;;
  if status_code response =? 200 then
    result <- lift (json_body response) ;;
    v <- lift (message_content result) ;;
    ret (Exit v)
  else if attempt =? max_retries self - 1 then
    ret (Exit (JStr ("Error: " ++ str_of_int (status_code response) ++ " - " ++ text response)))
  else ret Continue.

(** Lines 89-97, the three [except] clauses; any other exception goes on. *)
Definition attempt_except (self : LMStudioLLM) (attempt : Z) (e : exn) : py_result loop_step :=
  match class_of e with
  | Timeout =>
      if attempt =? max_retries self - 1 then
        Return (Exit (JStr ("Error: Request timed out after " ++ str_of_int (timeout self)
                            ++ " seconds. Please check if LM Studio is running and responsive.")))
      else Return FallThrough
  | ConnectionError =>
      if attempt =? max_retries self - 1 then
        Return (Exit (JStr ("Error: Cannot connect to LM Studio at " ++ base_url self
                            ++ ". Please ensure LM Studio is running.")))
      else Return FallThrough
  | RequestException =>
      if attempt =? max_retries self - 1 then
        Return (Exit (JStr ("Error connecting to LM Studio: " ++ exn_str e)))
      else Return FallThrough
  | _ => Raise e
  end.

(** Lines 71-100, one iteration. *)
Definition attempt_iter (w : world) (self : LMStudioLLM) (prompt : string) (attempt : Z)
  : M loop_step :=
  st <- try_with (attempt_try w self prompt attempt)
                 (fun e => lift (attempt_except self attempt e)) ;;
  match st with
  | FallThrough =>
      (if attempt <? max_retries self - 1 then sleep (2 ^ attempt) else ret tt) ;;;
      ret Continue
  | _ => ret st
  end.

(** Lines 70-102: [for attempt in range(self.max_retries)], [n] iterations left. *)
Fixpoint call_loop (w : world) (self : LMStudioLLM) (prompt : string) (n : nat) (attempt : Z)
  : M json :=
  match n with
  | O => ret (JStr "Error: All retry attempts failed")
  | S n' =>
      st <- attempt_iter w self prompt attempt ;;
      match st with
      | Exit v => ret v
      | _ => call_loop w self prompt n' (attempt + 1)
      end
  end.

Definition _call (w : world) (self : LMStudioLLM) (prompt : string) : M json :=
  call_loop w self prompt (Z.to_nat (max_retries self)) 0.

(** ** TavilySearchTool *)

Record TavilySearchTool : Type := mk_TavilySearchTool { api_key : string }.

(** [str(d.get(key, default))] inside an f-string. *)
Definition get_str (f : field) (default : string) : string :=
  match f with
  | Absent => default
  | Null => "None"
  | Text s => s
  end.

(** [d.get(key, default)[:n]]: [None] cannot be sliced. *)
Definition get_slice (f : field) (default : string) (n : nat) : py_result string :=
  match f with
  | Absent => Return (slice_to n default)
  | Null => Raise (not_subscriptable "NoneType")
  | Text s => Return (slice_to n s)
  end.

(** Lines 137-144. *)
Definition format_header (query : string) (data : tavily_data) : string :=
  nl ++ "## Search Results for: " ++ dquote ++ query ++ dquote ++ nl
  ++ nl
  ++ "### Summary" ++ nl
  ++ get_str (answer data) "No summary available" ++ nl
  ++ nl
  ++ "### Sources" ++ nl.

(** Lines 149-155. *)
Definition format_source (i : Z) (src : source) : py_result string :=
  and_then (get_slice (content src) "No content available" 300) (fun snippet =>
  Return (nl ++ "**" ++ str_of_int i ++ ". " ++ get_str (title src) "Untitled Source" ++ "**" ++ nl
          ++ "- **URL:** " ++ get_str (url src) "#" ++ nl
          ++ "- **Content:** " ++ snippet ++ "..." ++ nl
          ++ nl
          ++ "---" ++ nl)).

(** Lines 148-155: [for i, source in enumerate(sources, 1)]. *)
Fixpoint format_sources (i : Z) (sources : list source) (formatted_output : string)
  : py_result string :=
  match sources with
  | [] => Return formatted_output
  | src :: rest =>
      and_then (format_source i src) (fun entry =>
      format_sources (i + 1) rest (formatted_output ++ entry))
  end.

(** Lines 131-159, the body of the [try]. *)
Definition run_try (w : world) (query : string) (max_results : Z) : M string :=
  response <- search_post w query max_results ;;
  if status_code response =? 200 then
    data <- lift (json_body response) ;;
    lift (format_sources 1 (results data) (format_header query data))
  else
    ret ("Tavily API Error: " ++ str_of_int (status_code response) ++ " - " ++ text response).

(** Lines 161-162. *)
Definition run_except (e : exn) : M string :=
  if is_request_exception (class_of e) then ret ("Search Error: " ++ exn_str e)
  else raise e.

Definition _run (w : world) (self : TavilySearchTool) (query : string) (max_results : Z)
  : M string :=
  try_with (run_try w query max_results) run_except.

(** ** ResearchState *)

Inductive message : Type :=
| HumanMessage (content : string)
| AIMessage (content : string).

Record ResearchState : Type := mk_ResearchState {
  topic : string;
  research_plan : string;
  search_results : string;
  analysis : string;
  final_report : string;
  messages : list message;
  next_step : string;
  error : option string
}.

Definition set_research_plan (v : string) (st : ResearchState) : ResearchState :=
  mk_ResearchState (topic st) v (search_results st) (analysis st) (final_report st)
                   (messages st) (next_step st) (error st).

Definition set_search_results (v : string) (st : ResearchState) : ResearchState :=
  mk_ResearchState (topic st) (research_plan st) v (analysis st) (final_report st)
                   (messages st) (next_step st) (error st).

Definition set_messages (v : list message) (st : ResearchState) : ResearchState :=
  mk_ResearchState (topic st) (research_plan st) (search_results st) (analysis st)
                   (final_report st) v (next_step st) (error st).

Definition set_next_step (v : string) (st : ResearchState) : ResearchState :=
  mk_ResearchState (topic st) (research_plan st) (search_results st) (analysis st)
                   (final_report st) (messages st) v (error st).

Definition set_error (v : option string) (st : ResearchState) : ResearchState :=
  mk_ResearchState (topic st) (research_plan st) (search_results st) (analysis st)
                   (final_report st) (messages st) (next_step st) v.

(** [state["messages"].append(m)]. *)
Definition append_message (m : message) (st : ResearchState) : ResearchState :=
  set_messages (List.app (messages st) [m]) st.

(** ** ResearchGraph *)

Record ResearchGraph : Type := mk_ResearchGraph {
  llm : LMStudioLLM;
  search_tool : TavilySearchTool
}.

(** Lines 167-169; [max_tokens] and [max_retries] keep their class defaults. *)
Definition ResearchGraph_init (tavily_api_key lm_studio_url model_name : string) : ResearchGraph :=
  mk_ResearchGraph (mk_LMStudioLLM lm_studio_url model_name 2000 180 3)
                   (mk_TavilySearchTool tavily_api_key).

(** [self.llm(prompt)]: the text [_call] returns, through the LangChain base
    class, whose generation record takes a [str] only. *)
Definition llm_invoke (w : world) (self : LMStudioLLM) (prompt : string) : M string :=
  v <- _call w self prompt ;;
  match v with
  | JStr s => ret s
  | _ => raise (mk_exn ValidationError "1 validation error for Generation")
  end.

(** Lines 188-199. *)
Definition planner_prompt (topic : string) : string :=
  nl ++ "        As a research methodology expert, create a detailed research plan to investigate this topic: "
  ++ dquote ++ topic ++ dquote ++ nl
  ++ lines [ "";
             "        Your plan should include:";
             "        1. Key questions that need to be answered";
             "        2. Types of sources to prioritize (academic, news, official, etc.)";
             "        3. Multiple search strategies and keyword variations";
             "        4. Red flags or potential biases to watch for";
             "        5. Verification methods and fact-checking approaches";
             "";
             "        Make the plan specific, actionable, and thorough for this particular topic.";
             "        " ].

Definition fallback_sections : string :=
  lines [ "";
          "### Key Questions";
          "- What is the current status of this topic?";
          "- What evidence supports or contradicts this claim?";
          "- What do authoritative sources say?";
          "";
          "### Search Strategy";
          "- Direct topic search";
          "- Evidence-based search";
          "- Expert opinion search";
          "- Recent news search";
          "";
          "### Source Prioritization";
          "- Official sources first";
          "- Peer-reviewed content";
          "- Reputable news outlets";
          "- Expert commentary";
          "";
          "### Verification Methods";
          "- Cross-reference multiple sources";
          "- Check publication dates";
          "- Verify author credentials";
          "- Look for consensus";
          "                " ].

(** Lines 205-230. *)
Definition fallback_plan (topic : string) : string :=
  nl ++ "## Research Plan for: " ++ topic ++ nl ++ fallback_sections.

(** Line 204. *)
Definition has_error_marker (research_plan : string) : bool :=
  contains "Error:" research_plan || contains "timed out" (lower research_plan).

(** Lines 202-234, the body of the [try]. *)
Definition planner_try (w : world) (self : ResearchGraph) (state : ResearchState)
  : M ResearchState :=
  research_plan <- llm_invoke w (llm self) (planner_prompt (topic state)) ;;
  let research_plan :=
    if has_error_marker research_plan then fallback_plan (topic state) else research_plan in
  ret (set_next_step "web_searcher"
        (append_message (AIMessage ("Research plan created for: " ++ topic state))
          (set_research_plan research_plan state))).

(** Lines 235-237. *)
Definition planner_except (state : ResearchState) (e : exn) : M ResearchState :=
  ret (set_research_plan
         ("Basic research plan for: " ++ topic state ++ " (Error occurred in detailed planning)")
         (set_error (Some ("Error in research planning: " ++ exn_str e)) state)).

Definition _research_planner_node (w : world) (self : ResearchGraph) (state : ResearchState)
  : M ResearchState :=
  try_with (planner_try w self state) (planner_except state).

(** Lines 245-250. *)
Definition search_queries (topic : string) : list string :=
  [ topic;
    topic ++ " facts evidence 2024";
    topic ++ " expert analysis";
    topic ++ " recent research findings" ].

(** Lines 258-261, the body of the inner [try], for the query at index [i]. *)
Definition search_try (w : world) (self : ResearchGraph) (i : Z) (query : string)
  (acc : list string * Z) : M (list string * Z) :=
  result <- _run w (search_tool self) query 3 ;;
  let successful_searches :=
    if negb (contains "Error:" result) then snd acc + 1 else snd acc in
  ret (List.app (fst acc)
                [ "### Search Query " ++ str_of_int (i + 1) ++ ": '" ++ query ++ "'" ++ nl
                  ++ result ++ nl ],
       successful_searches).

(** Lines 262-263. *)
Definition search_except (i : Z) (query : string) (acc : list string * Z) (e : exn)
  : M (list string * Z) :=
  ret (List.app (fst acc)
                [ "**Search " ++ str_of_int (i + 1) ++ "** for '" ++ query ++ "' failed: "
                  ++ exn_str e ],
       snd acc).

(** Lines 256-263: [for i, query in enumerate(search_queries)], the pair is
    [(all_results, successful_searches)]. *)
Fixpoint search_loop (w : world) (self : ResearchGraph) (i : Z) (queries : list string)
  (acc : list string * Z) : M (list string * Z) :=
  match queries with
  | [] => ret acc
  | query :: rest =>
      acc' <- try_with (search_try w self i query acc) (search_except i query acc) ;;
      search_loop w self (i + 1) rest acc'
  end.

(** Lines 256-268, the body of the outer [try]. *)
Definition searcher_try (w : world) (self : ResearchGraph) (state : ResearchState)
  : M ResearchState :=
  let topic := topic state in
  let search_queries := search_queries topic in
  acc <- search_loop w self 0 search_queries ([], 0) ;;
  let combined_results := join nl (fst acc) in
  ret (set_next_step "complete"
        (append_message
           (AIMessage ("Completed " ++ str_of_int (Z.of_nat (length search_queries))
                       ++ " searches (" ++ str_of_int (snd acc) ++ " successful) for: " ++ topic))
           (set_search_results combined_results state))).

(** Lines 270-272. *)
Definition searcher_except (state : ResearchState) (e : exn) : M ResearchState :=
  ret (set_search_results ("Error occurred during search phase for: " ++ topic state)
         (set_error (Some ("Error in web searching: " ++ exn_str e)) state)).

Definition _web_searcher_node (w : world) (self : ResearchGraph) (state : ResearchState)
  : M ResearchState :=
  try_with (searcher_try w self state) (searcher_except state).

(** ** The compiled graph (lines 172-183)

    [StateGraph(ResearchState)] keeps one channel per key of the state.  A key
    annotated with a binary operator ([messages], line 34, with [operator.add])
    is folded with that operator at every write; every other key keeps the last
    value written.  A node is handed the channel values and the dict it returns
    is written back key by key; both nodes return the whole state.

    The list a node finds under [messages] is the channel's own list object, so
    the in-place [append] of lines 233 and 267 is seen by the channel before the
    returned list is added to it ([SharedObject]).  [FreshCopy] is the runtime
    that hands each node a copy instead. *)

Inductive channel_read : Type :=
| SharedObject
| FreshCopy.

(** The channels after a node returned [returned], [current] being what they
    held when the node started. *)
Definition apply_writes (mode : channel_read) (current returned : ResearchState)
  : ResearchState :=
  let held :=
    match mode with
    | SharedObject => messages returned
    | FreshCopy => messages current
    end in
  set_messages (List.app held (messages returned)) returned.

(** The input is written to empty channels: [[] + messages]. *)
Definition write_input (input : ResearchState) : ResearchState :=
  set_messages (List.app [] (messages input)) input.

(** [self.graph.invoke(initial_state)]: research_planner, web_searcher, END. *)
Definition invoke (mode : channel_read) (w : world) (self : ResearchGraph)
  (input : ResearchState) : M ResearchState :=
  let channels := write_input input in
  returned <- _research_planner_node w self channels ;;
  let channels := apply_writes mode channels returned in
  returned <- _web_searcher_node w self channels ;;
  ret (apply_writes mode channels returned).

(** The dict [research_topic] returns. *)
Module Result.
Record t : Type := mk {
  research_plan : string;
  search_results : string;
  error : option string
}.
End Result.

(** Lines 279-288. *)
Definition initial_state (topic : string) : ResearchState :=
  mk_ResearchState topic "" "" "" "" [HumanMessage ("Research topic: " ++ topic)]
                   "research_planner" None.

(** Lines 290-303. *)
Definition research_topic (mode : channel_read) (w : world) (self : ResearchGraph)
  (topic : string) : M Result.t :=
  try_with
    (final_state <- invoke mode w self (initial_state topic) ;;
     ret (Result.mk (research_plan final_state) (search_results final_state)
                    (error final_state)))
    (fun e =>
       ret (Result.mk "Error occurred during workflow execution"
                      "Error occurred during workflow execution"
                      (Some ("Graph execution error: " ++ exn_str e)))).

(** ** What one search call makes of the provider's outcome

    The value of [_run] as a function of the outcome of its single POST; the
    link with [_run] is [run_outcome] below. *)

Definition run_body (query : string) (o : outcome tavily_data) : py_result string :=
  match o with
  | Responded r =>
      if status_code r =? 200 then
        and_then (json_body r) (fun data =>
        format_sources 1 (results data) (format_header query data))
      else Return ("Tavily API Error: " ++ str_of_int (status_code r) ++ " - " ++ text r)
  | Failed e => Raise e
  end.

Definition run_value (query : string) (o : outcome tavily_data) : py_result string :=
  match run_body query o with
  | Return t => Return t
  | Raise e =>
      if is_request_exception (class_of e) then Return ("Search Error: " ++ exn_str e)
      else Raise e
  end.

(** The section the searching stage appends for the query at index [i]. *)
Definition section_text (i : Z) (query : string) (r : py_result string) : string :=
  match r with
  | Return result =>
      "### Search Query " ++ str_of_int (i + 1) ++ ": '" ++ query ++ "'" ++ nl ++ result ++ nl
  | Raise e =>
      "**Search " ++ str_of_int (i + 1) ++ "** for '" ++ query ++ "' failed: " ++ exn_str e
  end.

Definition after_search (s : effects) (query : string) : effects :=
  mk_effects (llm_posts s) (S (search_posts s)) (log s ++ [SearchPost query]).

(** The provider's answer to the [i]-th query of a stage that starts in [s]. *)
Definition variant_outcome (w : world) (s : effects) (i : nat) (query : string)
  : outcome tavily_data :=
  search_provider w (search_posts s + i)%nat query 3.


(** An attempt that [_call] turns into a string or into another attempt: a
    failure status, an exception of the [requests] family, or a 200 whose body
    has a string at [choices[0].message.content]. *)
Definition handled (o : outcome json) : bool :=
  match o with
  | Responded r =>
      if status_code r =? 200 then
        match json_body r with
        | Return body =>
            match message_content body with
            | Return (JStr _) => true
            | _ => false
            end
        | Raise e => is_request_exception (class_of e)
        end
      else true
  | Failed e => is_request_exception (class_of e)
  end.

(** ** Worlds used in the examples *)

Definition completion_body (content : json) : json :=
  JObj [("choices", JArr [JObj [("message", JObj [("role", JStr "assistant");
                                                  ("content", content)])]])].

Definition ok_response {B : Type} (body : B) : outcome B :=
  Responded (mk_response 200 "" (Return body)).

Definition status_response {B : Type} (code : Z) (text : string) : outcome B :=
  Responded (mk_response code text (Raise (mk_exn RequestException "Expecting value"))).

Definition no_results : tavily_data := mk_tavily_data (Text "nothing") [].

(** Both services answer: the completion is [content], every search is empty. *)
Definition answering_world (content : json) : world :=
  mk_world (fun _ _ => ok_response (completion_body content))
           (fun _ _ _ => ok_response no_results).

(** The completion endpoint answers 200 with a body that has no [choices]. *)
Definition shapeless_world : world :=
  mk_world (fun _ _ => ok_response (JObj [("error", JStr "model not loaded")]))
           (fun _ _ _ => ok_response no_results).

(** Every completion attempt ends the same way; every search is refused. *)
Definition failing_world (o : outcome json) : world :=
  mk_world (fun _ _ => o) (fun _ _ _ => status_response 401 "Unauthorized").

Definition timed_out : outcome json :=
  Failed (mk_exn Timeout "HTTPConnectionPool(host='127.0.0.1', port=1234): Read timed out.").

Definition three_results : tavily_data :=
  mk_tavily_data (Text "A summary")
    [ mk_source (Text "First") (Text "https://a.example") (Text "alpha");
      mk_source (Text "Second") (Text "https://b.example") (Text "beta");
      mk_source (Text "Third") Absent Absent ].

(** The first search is answered with three results, the later ones refused. *)
Definition one_success_world : world :=
  mk_world (fun _ _ => ok_response (completion_body (JStr "PLAN")))
           (fun n _ _ =>
              match n with
              | O => ok_response three_results
              | _ => status_response 429 "Too Many Requests"
              end).

(** The completion endpoint times out twice, then answers. *)
Definition recovering_world : world :=
  mk_world (fun n _ => if Nat.ltb n 2 then timed_out
                       else ok_response (completion_body (JStr "PLAN")))
           (fun _ _ _ => ok_response no_results).


Definition the_graph : ResearchGraph :=
  ResearchGraph_init "tvly-key" "http://127.0.0.1:1234/v1" "google/gemma-3-1b".

(** The sections, the success count and the effects of the loop of lines
    256-263, query by query. *)
Fixpoint loop_sections (w : world) (posts : nat) (i : Z) (queries : list string)
  : list string :=
  match queries with
  | [] => []
  | q :: rest =>
      section_text i q (run_value q (search_provider w posts q 3))
      :: loop_sections w (S posts) (i + 1) rest
  end.

Fixpoint loop_successes (w : world) (posts : nat) (queries : list string) : Z :=
  match queries with
  | [] => 0
  | q :: rest =>
      (match run_value q (search_provider w posts q 3) with
       | Return result => if negb (contains "Error:" result) then 1 else 0
       | Raise _ => 0
       end) + loop_successes w (S posts) rest
  end.

Definition after_searches (s : effects) (queries : list string) : effects :=
  fold_left after_search queries s.

(** ** What one attempt of [_call] makes of the endpoint's outcome

    The value of the [try] body and of the [try]/[except] statement of lines
    71-97 as functions of the outcome of the attempt's POST; the link with
    [attempt_try] and [attempt_iter] is [attempt_try_outcome] and
    [attempt_iter_outcome] below. *)

Definition attempt_body (self : LMStudioLLM) (attempt : Z) (o : outcome json)
  : py_result loop_step :=
  match o with
  | Responded r =>
      if status_code r =? 200 then
        and_then (json_body r) (fun result =>
        and_then (message_content result) (fun v => Return (Exit v)))
      else if attempt =? max_retries self - 1 then
        Return (Exit (JStr ("Error: " ++ str_of_int (status_code r) ++ " - " ++ text r)))
      else Return Continue
  | Failed e => Raise e
  end.

Definition attempt_value (self : LMStudioLLM) (attempt : Z) (o : outcome json)
  : py_result loop_step :=
  match attempt_body self attempt o with
  | Return st => Return st
  | Raise e => attempt_except self attempt e
  end.

Definition after_post (s : effects) (prompt : string) : effects :=
  mk_effects (S (llm_posts s)) (search_posts s) (log s ++ [LlmPost prompt]).

Definition after_sleep (s : effects) (seconds : Z) : effects :=
  mk_effects (llm_posts s) (search_posts s) (log s ++ [Sleep seconds]).

(** The effects below the [try] of an attempt whose handler fell through. *)
Definition after_backoff (self : LMStudioLLM) (attempt : Z) (s : effects) : effects :=
  if attempt <? max_retries self - 1 then after_sleep s (2 ^ attempt) else s.

(** The state a planning stage returns, from what [self.llm(prompt)] gave. *)
Definition planner_result (state : ResearchState) (r : py_result string) : ResearchState :=
  match r with
  | Return research_plan =>
      set_next_step "web_searcher"
        (append_message (AIMessage ("Research plan created for: " ++ topic state))
           (set_research_plan
              (if has_error_marker research_plan then fallback_plan (topic state)
               else research_plan)
              state))
  | Raise e =>
      set_research_plan
        ("Basic research plan for: " ++ topic state ++ " (Error occurred in detailed planning)")
        (set_error (Some ("Error in research planning: " ++ exn_str e)) state)
  end.

(** The state a searching stage returns when it starts after [posts] searches. *)
Definition searcher_result (w : world) (posts : nat) (state : ResearchState) : ResearchState :=
  set_next_step "complete"
    (append_message
       (AIMessage ("Completed 4 searches ("
                   ++ str_of_int (loop_successes w posts (search_queries (topic state)))
                   ++ " successful) for: " ++ topic state))
       (set_search_results
          (join nl (loop_sections w posts 0 (search_queries (topic state))))
          state)).

(** A search variant fails: a status other than 200, or an exception. *)
Definition search_fails (o : outcome tavily_data) : Prop :=
  match o with
  | Responded r => status_code r <> 200
  | Failed _ => True
  end.

(** An error-marked section for the query at index [i]: the section of a text
    with "Error:" in it, or the "failed:" line of a call that raised. *)
Definition error_section (i : Z) (query : string) (sec : string) : Prop :=
  (exists err, sec = section_text i query (Return err) /\ contains "Error:" err = true) \/
  (exists e, sec = section_text i query (Raise e)).

(** ** test_connections (lines 305-326) *)

(** The dict of the two health flags. *)
Record connection_status : Type := mk_connection_status {
  tavily : bool;
  lm_studio : bool
}.

(** [if key:] on a [str]. *)
Definition truthy (key : string) : bool := negb (String.eqb key "").

(** Lines 310-316; the bare [except:] catches whatever is raised. *)
Definition test_tavily (w : world) (tavily_key : string) : M bool :=
  if truthy tavily_key then
    try_with
      (let search_tool := mk_TavilySearchTool tavily_key in
       test_result <- _run w search_tool "hello world test" 1 ;;
       ret (negb (contains "Error:" test_result)))
      (fun _ => ret false)
  else ret false.

(** Lines 319-324; [timeout=30], the other settings keep their defaults. *)
Definition test_lm_studio (w : world) (lm_studio_url model_name : string) : M bool :=
  try_with
    (let test_llm := mk_LMStudioLLM lm_studio_url model_name 2000 30 3 in
     test_response <- llm_invoke w test_llm "Say 'Hello'" ;;
     ret (negb (contains "Error:" test_response)
          && negb (contains "timed out" (lower test_response)))%bool)
    (fun _ => ret false).

Definition test_connections (w : world) (tavily_key lm_studio_url model_name : string)
  : M connection_status :=
  tavily_ok <- test_tavily w tavily_key ;;
  lm_studio_ok <- test_lm_studio w lm_studio_url model_name ;;
  ret (mk_connection_status tavily_ok lm_studio_ok).

(** ** Reading the event log *)

Definition sleep_seconds (e : event) : Z :=
  match e with
  | Sleep seconds => seconds
  | _ => 0
  end.

(** The time slept in a stretch of the log. *)
Definition total_sleep (l : list event) : Z :=
  fold_right (fun e acc => sleep_seconds e + acc) 0 l.

Definition is_search_post (e : event) : bool :=
  match e with
  | SearchPost _ => true
  | _ => false
  end.

(** The log of [k] attempts on [prompt] from [attempt] on, each followed by
    its backoff sleep. *)
Fixpoint backoff_log (prompt : string) (k : nat) (attempt : Z) : list event :=
  match k with
  | O => []
  | S k' => LlmPost prompt :: Sleep (2 ^ attempt) :: backoff_log prompt k' (attempt + 1)
  end.

(** The POST raised an exception of the [requests] family. *)
Definition raises_request (o : outcome json) : bool :=
  match o with
  | Responded _ => false
  | Failed e => is_request_exception (class_of e)
  end.

(** An attempt after which [_call] tries again when it can: a status other
    than 200, or an exception of the [requests] family. *)
Definition retryable (o : outcome json) : bool :=
  match o with
  | Responded r => negb (status_code r =? 200)
  | Failed e => is_request_exception (class_of e)
  end.

(** An attempt that ends in a failure status, a timeout or a connection
    failure. *)
Definition plain_failure (o : outcome json) : bool :=
  match o with
  | Responded r => negb (status_code r =? 200)
  | Failed e =>
      match class_of e with
      | Timeout | ConnectionError => true
      | _ => false
      end
  end.

(** * Properties *)

(** ** Strings *)

Lemma prefix_empty (s : string) : prefix "" s = true.
Proof. destruct s; reflexivity. Qed.

Lemma prefix_app (sub rest : string) : prefix sub (sub ++ rest) = true.
Proof.
  induction sub as [|c sub IH]; simpl; [apply prefix_empty|].
  destruct (ascii_dec c c) as [_|Hc]; [exact IH | contradiction].
Qed.

Lemma contains_prefix (sub s : string) : prefix sub s = true -> contains sub s = true.
Proof.
  intros H; destruct s; cbn [contains]; rewrite H; reflexivity.
Qed.

Lemma contains_app_r (sub a b : string) :
  contains sub b = true -> contains sub (a ++ b) = true.
Proof.
  intros H; induction a as [|c a IH]; cbn [append contains]; [exact H|].
  rewrite IH; apply orb_true_r.
Qed.

Lemma contains_starts (sub rest : string) : contains sub (sub ++ rest) = true.
Proof. apply contains_prefix, prefix_app. Qed.




(** ** The search tool and the searching stage *)

Lemma run_outcome (w : world) (self : TavilySearchTool) (q : string) (m : Z) (s : effects) :
  _run w self q m s = (run_value q (search_provider w (search_posts s) q m), after_search s q).
Proof.
  unfold _run, try_with, run_try, bind, search_post, run_value, run_body, run_except,
    lift, ret, raise, after_search.
  destruct (search_provider w (search_posts s) q m) as [r|e]; simpl.
  - destruct (status_code r =? 200); [|reflexivity].
    destruct (json_body r) as [data|e]; simpl.
    + destruct (format_sources 1 (results data) (format_header q data)) as [t|e]; simpl;
        [reflexivity|].
      destruct (is_request_exception (class_of e)); reflexivity.
    + destruct (is_request_exception (class_of e)); reflexivity.
  - destruct (is_request_exception (class_of e)); reflexivity.
Qed.

Lemma search_iteration (w : world) (self : ResearchGraph) (i : Z) (q : string)
  (acc : list string * Z) (s : effects) :
  try_with (search_try w self i q acc) (search_except i q acc) s =
  (Return (List.app (fst acc)
             [section_text i q (run_value q (search_provider w (search_posts s) q 3))],
           snd acc + match run_value q (search_provider w (search_posts s) q 3) with
                     | Return result => if negb (contains "Error:" result) then 1 else 0
                     | Raise _ => 0
                     end),
   after_search s q).
Proof.
  unfold try_with, search_try, search_except, bind.
  rewrite run_outcome.
  destruct (run_value q (search_provider w (search_posts s) q 3)) as [t|e];
    unfold ret; cbn [section_text fst snd].
  - destruct (negb (contains "Error:" t)); [reflexivity|].
    rewrite Z.add_0_r; reflexivity.
  - rewrite Z.add_0_r; reflexivity.
Qed.

Lemma search_loop_spec (w : world) (self : ResearchGraph) (queries : list string) :
  forall (i : Z) (acc : list string * Z) (s : effects),
    search_loop w self i queries acc s =
    (Return (List.app (fst acc) (loop_sections w (search_posts s) i queries),
             snd acc + loop_successes w (search_posts s) queries),
     after_searches s queries).
Proof.
  induction queries as [|q rest IH]; intros i acc s; simpl.
  - unfold ret; rewrite app_nil_r, Z.add_0_r; destruct acc; reflexivity.
  - unfold bind; rewrite search_iteration, IH; simpl.
    rewrite <- app_assoc, Z.add_assoc; reflexivity.
Qed.

(** The searching stage never takes its handler: it returns the state with the
    joined sections, one more message and [next_step = "complete"]. *)
Lemma searcher_spec (w : world) (self : ResearchGraph) (state : ResearchState) (s : effects) :
  _web_searcher_node w self state s =
  (Return (searcher_result w (search_posts s) state),
   after_searches s (search_queries (topic state))).
Proof.
  unfold _web_searcher_node, try_with, searcher_try, bind.
  rewrite search_loop_spec; reflexivity.
Qed.

(** ** The completion client *)

Section Client.
Variables (w : world) (self : LMStudioLLM) (prompt : string).

Lemma attempt_try_outcome (attempt : Z) (s : effects) :
  attempt_try w self prompt attempt s =
  (attempt_body self attempt (completion_endpoint w (llm_posts s) prompt),
   after_post s prompt).
Proof.
  unfold attempt_try, attempt_body, bind, llm_post, lift, ret, after_post.
  destruct (completion_endpoint w (llm_posts s) prompt) as [r|e]; [|reflexivity].
  destruct (status_code r =? 200).
  - destruct (json_body r) as [result|e]; [|reflexivity].
    cbn [and_then]; destruct (message_content result); reflexivity.
  - destruct (attempt =? max_retries self - 1); reflexivity.
Qed.

Lemma attempt_iter_outcome (attempt : Z) (s : effects) :
  attempt_iter w self prompt attempt s =
  match attempt_value self attempt (completion_endpoint w (llm_posts s) prompt) with
  | Return FallThrough =>
      (Return Continue, after_backoff self attempt (after_post s prompt))
  | r => (r, after_post s prompt)
  end.
Proof.
  unfold attempt_iter, bind, try_with, attempt_value.
  rewrite attempt_try_outcome.
  destruct (attempt_body self attempt (completion_endpoint w (llm_posts s) prompt))
    as [st|e].
  - destruct st; try reflexivity.
    unfold after_backoff; destruct (attempt <? max_retries self - 1); reflexivity.
  - unfold lift.
    destruct (attempt_except self attempt e) as [st|e']; [|reflexivity].
    destruct st; try reflexivity.
    unfold after_backoff; destruct (attempt <? max_retries self - 1); reflexivity.
Qed.

(** One turn of the loop. *)
Lemma call_loop_step (n : nat) (attempt : Z) (s : effects) :
  call_loop w self prompt (S n) attempt s =
  match attempt_value self attempt (completion_endpoint w (llm_posts s) prompt) with
  | Return (Exit v) => (Return v, after_post s prompt)
  | Return Continue => call_loop w self prompt n (attempt + 1) (after_post s prompt)
  | Return FallThrough =>
      call_loop w self prompt n (attempt + 1)
        (after_backoff self attempt (after_post s prompt))
  | Raise e => (Raise e, after_post s prompt)
  end.
Proof.
  cbn [call_loop]; unfold bind; rewrite attempt_iter_outcome.
  destruct (attempt_value self attempt (completion_endpoint w (llm_posts s) prompt))
    as [st|e]; [|reflexivity].
  destruct st; reflexivity.
Qed.

Lemma llm_posts_after_backoff (attempt : Z) (s : effects) :
  llm_posts (after_backoff self attempt s) = llm_posts s.
Proof. unfold after_backoff; destruct (attempt <? max_retries self - 1); reflexivity. Qed.

Lemma search_posts_after_backoff (attempt : Z) (s : effects) :
  search_posts (after_backoff self attempt s) = search_posts s.
Proof. unfold after_backoff; destruct (attempt <? max_retries self - 1); reflexivity. Qed.

End Client.





(** What a handler gives is a continuation or an error text with its marker's
    first letter. *)
Lemma attempt_except_caught (self : LMStudioLLM) (attempt : Z) (e : exn) :
  is_request_exception (class_of e) = true ->
  attempt_except self attempt e = Return FallThrough \/
  exists rest, attempt_except self attempt e = Return (Exit (JStr (String "E" rest))).
Proof.
  unfold attempt_except; destruct (class_of e); cbn; intros H; try discriminate;
    destruct (attempt =? max_retries self - 1); auto; right; eexists; reflexivity.
Qed.

Section ClientFacts.
Variables (w : world) (self : LMStudioLLM) (prompt : string).

Lemma call_loop_search_posts (n : nat) :
  forall (attempt : Z) (s : effects),
    search_posts (snd (call_loop w self prompt n attempt s)) = search_posts s.
Proof.
  induction n as [|n IH]; intros attempt s; [reflexivity|].
  rewrite call_loop_step.
  destruct (attempt_value self attempt (completion_endpoint w (llm_posts s) prompt))
    as [[v| |]|e]; try reflexivity.
  - rewrite IH; reflexivity.
  - rewrite IH, search_posts_after_backoff; reflexivity.
Qed.

(** No more POSTs than iterations. *)
Lemma call_loop_posts (n : nat) :
  forall (attempt : Z) (s : effects),
    (llm_posts (snd (call_loop w self prompt n attempt s)) <= llm_posts s + n)%nat.
Proof.
  induction n as [|n IH]; intros attempt s; [cbn; lia|].
  rewrite call_loop_step.
  destruct (attempt_value self attempt (completion_endpoint w (llm_posts s) prompt))
    as [[v| |]|e]; cbn [snd after_post llm_posts]; try lia.
  - specialize (IH (attempt + 1) (after_post s prompt)); cbn [after_post llm_posts] in IH; lia.
  - specialize (IH (attempt + 1) (after_backoff self attempt (after_post s prompt))).
    rewrite llm_posts_after_backoff in IH; cbn [after_post llm_posts] in IH; lia.
Qed.



End ClientFacts.

Section ClientOutcomes.
Variables (w : world) (self : LMStudioLLM) (prompt : string).

(** A handled attempt ends in a string or in another attempt. *)
Lemma attempt_value_handled (attempt : Z) (o : outcome json) :
  handled o = true ->
  (exists str, attempt_value self attempt o = Return (Exit (JStr str))) \/
  attempt_value self attempt o = Return Continue \/
  attempt_value self attempt o = Return FallThrough.
Proof.
  unfold handled, attempt_value, attempt_body.
  destruct o as [r|e].
  - destruct (status_code r =? 200).
    + destruct (json_body r) as [body|e]; cbn [and_then].
      * destruct (message_content body) as [[| | |str| |]|e]; try discriminate.
        intros _; left; exists str; reflexivity.
      * intros Hc; destruct (attempt_except_caught self attempt e Hc) as [H|[rest H]];
          rewrite H; [auto | left; eexists; reflexivity].
    + intros _; destruct (attempt =? max_retries self - 1);
        [left; eexists; reflexivity | auto].
  - intros Hc; destruct (attempt_except_caught self attempt e Hc) as [H|[rest H]];
      rewrite H; [auto | left; eexists; reflexivity].
Qed.

Lemma call_loop_handled (n : nat) :
  forall (attempt : Z) (s : effects),
    (forall k, (k < n)%nat ->
               handled (completion_endpoint w (llm_posts s + k) prompt) = true) ->
    exists str s', call_loop w self prompt n attempt s = (Return (JStr str), s').
Proof.
  induction n as [|n IH]; intros attempt s Hall; [cbn; unfold ret; eauto|].
  rewrite call_loop_step.
  assert (H0 : handled (completion_endpoint w (llm_posts s) prompt) = true).
  { rewrite <- (Nat.add_0_r (llm_posts s)); apply Hall; lia. }
  destruct (attempt_value_handled attempt _ H0) as [[str H]|[H|H]]; rewrite H.
  - eauto.
  - apply IH; intros k Hk; cbn [after_post llm_posts].
    replace (S (llm_posts s) + k)%nat with (llm_posts s + S k)%nat by lia.
    apply Hall; lia.
  - apply IH; intros k Hk; rewrite llm_posts_after_backoff; cbn [after_post llm_posts].
    replace (S (llm_posts s) + k)%nat with (llm_posts s + S k)%nat by lia.
    apply Hall; lia.
Qed.


(** Every attempt times out: the text that comes back carries "Error:". *)
Lemma call_loop_timeouts (n : nat) :
  forall (attempt : Z) (s : effects),
    (forall k, (k < n)%nat ->
               exists e, completion_endpoint w (llm_posts s + k) prompt = Failed e /\
                         class_of e = Timeout) ->
    exists str s', call_loop w self prompt n attempt s = (Return (JStr str), s') /\
                   contains "Error:" str = true.
Proof.
  induction n as [|n IH]; intros attempt s Hall.
  - cbn; unfold ret; eexists; eexists; split; reflexivity.
  - rewrite call_loop_step.
    destruct (Hall 0%nat ltac:(lia)) as (e & He & Hc).
    rewrite Nat.add_0_r in He; rewrite He.
    unfold attempt_value, attempt_body, attempt_except; rewrite Hc.
    destruct (attempt =? max_retries self - 1).
    + eexists; eexists; split; [reflexivity|].
      apply (contains_starts "Error:").
    + apply IH; intros k Hk; rewrite llm_posts_after_backoff; cbn [after_post llm_posts].
      replace (S (llm_posts s) + k)%nat with (llm_posts s + S k)%nat by lia.
      apply Hall; lia.
Qed.

End ClientOutcomes.

(** The loop consults the endpoint only at the attempts it makes. *)
Lemma call_loop_ext (w1 w2 : world) (self : LMStudioLLM) (prompt : string) (n : nat) :
  forall (attempt : Z) (s : effects),
    (forall k, (k < n)%nat ->
               completion_endpoint w1 (llm_posts s + k) prompt =
               completion_endpoint w2 (llm_posts s + k) prompt) ->
    call_loop w1 self prompt n attempt s = call_loop w2 self prompt n attempt s.
Proof.
  induction n as [|n IH]; intros attempt s Hall; [reflexivity|].
  rewrite !call_loop_step.
  pose proof (Hall 0%nat ltac:(lia)) as H0.
  rewrite Nat.add_0_r in H0; rewrite <- H0.
  destruct (attempt_value self attempt (completion_endpoint w1 (llm_posts s) prompt))
    as [[v| |]|e]; try reflexivity.
  - apply IH; intros k Hk; cbn [after_post llm_posts].
    replace (S (llm_posts s) + k)%nat with (llm_posts s + S k)%nat by lia.
    apply Hall; lia.
  - apply IH; intros k Hk; rewrite llm_posts_after_backoff; cbn [after_post llm_posts].
    replace (S (llm_posts s) + k)%nat with (llm_posts s + S k)%nat by lia.
    apply Hall; lia.
Qed.

(** ** The planning stage and the graph *)

Lemma llm_invoke_outcome (w : world) (self : LMStudioLLM) (prompt : string) (s : effects) :
  llm_invoke w self prompt s =
  match _call w self prompt s with
  | (Return (JStr text), s') => (Return text, s')
  | (Return _, s') => (Raise (mk_exn ValidationError "1 validation error for Generation"), s')
  | (Raise e, s') => (Raise e, s')
  end.
Proof.
  unfold llm_invoke, bind.
  destruct (_call w self prompt s) as [[v|e] s']; [|reflexivity].
  destruct v; reflexivity.
Qed.

Lemma llm_invoke_search_posts (w : world) (self : LMStudioLLM) (prompt : string) (s : effects) :
  search_posts (snd (llm_invoke w self prompt s)) = search_posts s.
Proof.
  rewrite llm_invoke_outcome.
  pose proof (call_loop_search_posts w self prompt (Z.to_nat (max_retries self)) 0 s) as H.
  fold (_call w self prompt) in H.
  destruct (_call w self prompt s) as [[v|e] s']; [destruct v|]; exact H.
Qed.

(** The planning stage always returns: its handler catches every exception. *)
Lemma planner_spec (w : world) (self : ResearchGraph) (state : ResearchState) (s : effects) :
  _research_planner_node w self state s =
  (Return (planner_result state (fst (llm_invoke w (llm self) (planner_prompt (topic state)) s))),
   snd (llm_invoke w (llm self) (planner_prompt (topic state)) s)).
Proof.
  unfold _research_planner_node, try_with, planner_try, planner_except, bind.
  destruct (llm_invoke w (llm self) (planner_prompt (topic state)) s) as [[t|e] s'];
    reflexivity.
Qed.

Lemma planner_try_outcome (w : world) (self : ResearchGraph) (state : ResearchState)
  (s : effects) :
  planner_try w self state s =
  match llm_invoke w (llm self) (planner_prompt (topic state)) s with
  | (Return t, s') => (Return (planner_result state (Return t)), s')
  | (Raise e, s') => (Raise e, s')
  end.
Proof.
  unfold planner_try, bind.
  destruct (llm_invoke w (llm self) (planner_prompt (topic state)) s) as [[t|e] s'];
    reflexivity.
Qed.

(** The whole graph, stage by stage. *)
Lemma invoke_spec (mode : channel_read) (w : world) (self : ResearchGraph)
  (input : ResearchState) (s : effects) :
  let r := llm_invoke w (llm self) (planner_prompt (topic input)) s in
  let planned := apply_writes mode (write_input input)
                   (planner_result (write_input input) (fst r)) in
  invoke mode w self input s =
  (Return (apply_writes mode planned (searcher_result w (search_posts s) planned)),
   after_searches (snd r) (search_queries (topic input))).
Proof.
  cbv zeta; unfold invoke, bind.
  rewrite planner_spec; cbn [write_input set_messages topic].
  rewrite searcher_spec, llm_invoke_search_posts.
  unfold ret; f_equal.
  destruct (fst (llm_invoke w (llm self) (planner_prompt (topic input)) s));
    destruct mode; reflexivity.
Qed.


Lemma fallback_plan_nonempty (topic : string) : fallback_plan topic <> "".
Proof. unfold fallback_plan; discriminate. Qed.

Lemma fallback_plan_header (header topic : string) :
  contains header (nl ++ fallback_sections) = true ->
  contains header (fallback_plan topic) = true.
Proof.
  intros H; unfold fallback_plan.
  apply contains_app_r, contains_app_r, contains_app_r; exact H.
Qed.


(** ** C2 *)

(** C2 at a failing input: the endpoint answers status 500 to each of the three
    attempts.  The [continue] of line 87 goes straight to the next attempt, past
    the [time.sleep] of line 100: three POSTs and no sleep between them. *)
Theorem http_failures_retry_without_sleep :
  _call (failing_world (status_response 500 "Internal Server Error")) (llm the_graph)
        "Say 'Hello'" no_effects
  = (Return (JStr "Error: 500 - Internal Server Error"),
     mk_effects 3 0 [LlmPost "Say 'Hello'"; LlmPost "Say 'Hello'"; LlmPost "Say 'Hello'"]).
Proof. vm_compute; reflexivity. Qed.

(** The sibling paths do back off: after a timeout the handler falls through to
    the sleep, 1 then 2 seconds. *)
Example timeouts_back_off :
  log (snd (_call (failing_world timed_out) (llm the_graph) "Say 'Hello'" no_effects))
  = [LlmPost "Say 'Hello'"; Sleep 1; LlmPost "Say 'Hello'"; Sleep 2; LlmPost "Say 'Hello'"].
Proof. vm_compute; reflexivity. Qed.

(** Whatever the endpoint does, [_call] makes at most [max_retries] attempts. *)
Lemma call_attempts_bounded (w : world) (self : LMStudioLLM) (prompt : string) (s : effects) :
  (llm_posts (snd (_call w self prompt s)) <= llm_posts s + Z.to_nat (max_retries self))%nat.
Proof. apply call_loop_posts. Qed.

(** ** C4 *)

(** C4 on the code: after a run in which no stage caught an exception the final
    [messages] holds ten entries, not three.  Each node appends to the list it
    was handed and returns it under [messages], and the graph adds what a node
    returns to what the channel holds (line 34): the channel's list, already
    one entry longer, is doubled.  With a runtime that hands nodes a copy the
    list has seven entries. *)
Theorem messages_after_exception_free_run
  (mode : channel_read) (w : world) (self : ResearchGraph) (the_topic : string)
  (planned : ResearchState) (s1 : effects) :
  planner_try w self (write_input (initial_state the_topic)) no_effects = (Return planned, s1) ->
  exists final eff n,
    invoke mode w self (initial_state the_topic) no_effects = (Return final, eff) /\
    let human := HumanMessage ("Research topic: " ++ the_topic) in
    let plan_created := AIMessage ("Research plan created for: " ++ the_topic) in
    let completed :=
      AIMessage ("Completed 4 searches (" ++ str_of_int n ++ " successful) for: " ++ the_topic) in
    messages final =
    match mode with
    | SharedObject =>
        [human; plan_created; human; plan_created; completed;
         human; plan_created; human; plan_created; completed]
    | FreshCopy =>
        [human; human; plan_created; human; human; plan_created; completed]
    end /\
    length (messages final) <> 3%nat.
Proof.
  intros Hplanned.
  rewrite planner_try_outcome in Hplanned.
  rewrite invoke_spec; cbv zeta.
  cbn [write_input initial_state set_messages topic] in Hplanned |- *.
  destruct (llm_invoke w (llm self) (planner_prompt the_topic) no_effects) as [[t|e] s'];
    [|discriminate].
  eexists; eexists; eexists; split; [reflexivity|].
  destruct mode; cbn; split; try reflexivity; discriminate.
Qed.

Lemma messages_after_exception_free_run_witness :
  exists final eff,
    invoke SharedObject (answering_world (JStr "PLAN")) the_graph (initial_state "X") no_effects
    = (Return final, eff) /\
    length (messages final) = 10%nat.
Proof.
  destruct (messages_after_exception_free_run SharedObject (answering_world (JStr "PLAN"))
              the_graph "X"
              (planner_result (write_input (initial_state "X")) (Return "PLAN"))
              (after_post no_effects (planner_prompt "X")) eq_refl)
    as (final & eff & n & Hrun & Hmsgs & _).
  exists final, eff; split; [exact Hrun|].
  cbv zeta in Hmsgs; rewrite Hmsgs; reflexivity.
Defined.

(** ** C5 and C6: the searching stage *)

Lemma run_value_fails (query : string) (o : outcome tavily_data) :
  search_fails o ->
  (exists err, run_value query o = Return err /\ contains "Error:" err = true) \/
  (exists e, run_value query o = Raise e).
Proof.
  unfold search_fails, run_value, run_body.
  destruct o as [r|e].
  - intros Hs; apply Z.eqb_neq in Hs; rewrite Hs.
    left; eexists; split; [reflexivity|].
    reflexivity.
  - intros _; destruct (is_request_exception (class_of e)).
    + left; eexists; split; [reflexivity|].
      reflexivity.
    + right; eexists; reflexivity.
Qed.

Lemma error_section_of_failure (i : Z) (query : string) (o : outcome tavily_data) :
  search_fails o -> error_section i query (section_text i query (run_value query o)).
Proof.
  intros Hf; destruct (run_value_fails query o Hf) as [(err & Hv & Hc)|(e & Hv)];
    rewrite Hv; [left; exists err | right; exists e]; auto.
Qed.

Lemma log_after_searches (s : effects) (queries : list string) :
  log (after_searches s queries) = (log s ++ map SearchPost queries)%list.
Proof.
  revert s; induction queries as [|q rest IH]; intros s; cbn [after_searches fold_left map].
  - rewrite app_nil_r; reflexivity.
  - fold (after_searches (after_search s q) rest); rewrite IH; cbn [after_search log].
    rewrite <- app_assoc; reflexivity.
Qed.

(** C6: for every topic X and whatever the provider answers, the searching
    stage posts exactly four queries, in this order: X, X facts evidence 2024,
    X expert analysis, X recent research findings. *)
Theorem searcher_issues_four_queries
  (w : world) (self : ResearchGraph) (state : ResearchState) (s : effects) :
  exists state' s',
    _web_searcher_node w self state s = (Return state', s') /\
    log s' = (log s ++ [ SearchPost (topic state);
                         SearchPost (topic state ++ " facts evidence 2024");
                         SearchPost (topic state ++ " expert analysis");
                         SearchPost (topic state ++ " recent research findings") ])%list /\
    search_posts s' = (search_posts s + 4)%nat /\
    llm_posts s' = llm_posts s.
Proof.
  rewrite searcher_spec; eexists; eexists; split; [reflexivity|].
  split; [apply log_after_searches|].
  cbn; split; [lia | reflexivity].
Qed.

(** C5: the searching stage runs every variant whatever the others did: the
    four queries are posted in order, and search_results is the four sections,
    in query order and joined by newlines, each labelled with its index and its
    query and holding what its own call gave (the formatted text, the
    error-marked text, or the failure line of a call that raised).  When the
    first variant is answered 200 and formats to a text, and the three others
    fail, search_results is that one successful section followed by three
    error-marked sections, in query order. *)
Theorem searcher_isolates_variants
  (w : world) (self : ResearchGraph) (state : ResearchState) (s : effects) :
  let q := fun i => nth i (search_queries (topic state)) "" in
  let gave := fun i => run_value (q i) (variant_outcome w s i (q i)) in
  exists state' s',
    _web_searcher_node w self state s = (Return state', s') /\
    log s' = (log s ++ map SearchPost (search_queries (topic state)))%list /\
    search_results state' =
      join nl [ section_text 0 (q 0%nat) (gave 0%nat); section_text 1 (q 1%nat) (gave 1%nat);
                section_text 2 (q 2%nat) (gave 2%nat); section_text 3 (q 3%nat) (gave 3%nat) ] /\
    (forall r data formatted,
       variant_outcome w s 0 (q 0%nat) = Responded r ->
       status_code r = 200 ->
       json_body r = Return data ->
       format_sources 1 (results data) (format_header (q 0%nat) data) = Return formatted ->
       search_fails (variant_outcome w s 1 (q 1%nat)) ->
       search_fails (variant_outcome w s 2 (q 2%nat)) ->
       search_fails (variant_outcome w s 3 (q 3%nat)) ->
       exists sec2 sec3 sec4,
         search_results state' =
           join nl [ "### Search Query 1: '" ++ topic state ++ "'" ++ nl ++ formatted ++ nl;
                     sec2; sec3; sec4 ] /\
         error_section 1 (q 1%nat) sec2 /\
         error_section 2 (q 2%nat) sec3 /\
         error_section 3 (q 3%nat) sec4).
Proof.
  cbv zeta; rewrite searcher_spec.
  eexists; eexists; split; [reflexivity|].
  split; [apply log_after_searches|].
  assert (Hsections :
    search_results (searcher_result w (search_posts s) state) =
    join nl
      [ section_text 0 (nth 0 (search_queries (topic state)) "")
          (run_value (nth 0 (search_queries (topic state)) "")
             (variant_outcome w s 0 (nth 0 (search_queries (topic state)) "")));
        section_text 1 (nth 1 (search_queries (topic state)) "")
          (run_value (nth 1 (search_queries (topic state)) "")
             (variant_outcome w s 1 (nth 1 (search_queries (topic state)) "")));
        section_text 2 (nth 2 (search_queries (topic state)) "")
          (run_value (nth 2 (search_queries (topic state)) "")
             (variant_outcome w s 2 (nth 2 (search_queries (topic state)) "")));
        section_text 3 (nth 3 (search_queries (topic state)) "")
          (run_value (nth 3 (search_queries (topic state)) "")
             (variant_outcome w s 3 (nth 3 (search_queries (topic state)) ""))) ]).
  { unfold searcher_result, variant_outcome, search_queries.
    cbn [search_results set_next_step append_message set_messages set_search_results
         loop_sections nth Z.add Pos.add Pos.succ].
    rewrite Nat.add_0_r.
    replace (search_posts s + 1)%nat with (S (search_posts s)) by lia.
    replace (search_posts s + 2)%nat with (S (S (search_posts s))) by lia.
    replace (search_posts s + 3)%nat with (S (S (S (search_posts s)))) by lia.
    reflexivity. }
  split; [exact Hsections|].
  intros r data formatted Ho Hs Hb Hf H1 H2 H3.
  rewrite Hsections.
  eexists; eexists; eexists; split; [|split; [|split]].
  2: exact (error_section_of_failure 1 _ _ H1).
  2: exact (error_section_of_failure 2 _ _ H2).
  2: exact (error_section_of_failure 3 _ _ H3).
  do 2 f_equal.
  rewrite Ho; unfold run_value, run_body; rewrite Hs, Hb; cbn [Z.eqb Pos.eqb and_then].
  rewrite Hf; reflexivity.
Qed.

Lemma searcher_isolates_variants_witness :
  exists state' s' formatted sec2 sec3 sec4,
    _web_searcher_node one_success_world the_graph (initial_state "topic") no_effects
    = (Return state', s') /\
    search_results state' =
      join nl [ "### Search Query 1: 'topic'" ++ nl ++ formatted ++ nl; sec2; sec3; sec4 ] /\
    error_section 1 "topic facts evidence 2024" sec2 /\
    error_section 2 "topic expert analysis" sec3 /\
    error_section 3 "topic recent research findings" sec4.
Proof.
  destruct (searcher_isolates_variants one_success_world the_graph (initial_state "topic")
              no_effects) as (state' & s' & Hrun & _ & _ & Hscenario).
  assert (Hrefused : forall code : Z, code = 429 -> code <> 200) by (intros code -> H; discriminate H).
  destruct (Hscenario _ three_results _ eq_refl eq_refl eq_refl eq_refl
              (Hrefused _ eq_refl) (Hrefused _ eq_refl) (Hrefused _ eq_refl))
    as (sec2 & sec3 & sec4 & Hres & H2 & H3 & H4).
  exists state', s'; eexists; exists sec2, sec3, sec4.
  split; [exact Hrun|]; split; [exact Hres|]; split; [exact H2|]; split; [exact H3|exact H4].
Defined.

(** ** C7 *)

(** C7: whenever the text of the completion client carries an error marker
    (line 204: "Error:" in it, or "timed out" in its lower-cased form) the
    planning stage's plan is the fallback template, which is not empty and holds
    the four section headers; and when every attempt the client makes times
    out, the text carries the marker, so the plan is that template. *)
Theorem planner_substitutes_fallback
  (w : world) (self : ResearchGraph) (state : ResearchState) (s : effects) :
  (forall text s',
     llm_invoke w (llm self) (planner_prompt (topic state)) s = (Return text, s') ->
     has_error_marker text = true ->
     exists state',
       _research_planner_node w self state s = (Return state', s') /\
       research_plan state' = fallback_plan (topic state))
  /\
  (fallback_plan (topic state) <> "" /\
   contains "Key Questions" (fallback_plan (topic state)) = true /\
   contains "Search Strategy" (fallback_plan (topic state)) = true /\
   contains "Source Prioritization" (fallback_plan (topic state)) = true /\
   contains "Verification Methods" (fallback_plan (topic state)) = true)
  /\
  ((forall k, (k < Z.to_nat (max_retries (llm self)))%nat ->
              exists e, completion_endpoint w (llm_posts s + k) (planner_prompt (topic state))
                        = Failed e /\ class_of e = Timeout) ->
   exists state' s',
     _research_planner_node w self state s = (Return state', s') /\
     research_plan state' = fallback_plan (topic state) /\
     error state' = error state).
Proof.
  split; [|split].
  - intros text s' Hinvoke Hmarker.
    rewrite planner_spec, Hinvoke; cbn [fst snd planner_result].
    rewrite Hmarker; eexists; split; reflexivity.
  - split; [apply fallback_plan_nonempty|].
    repeat split; apply fallback_plan_header; vm_compute; reflexivity.
  - intros Htimeouts.
    destruct (call_loop_timeouts w (llm self) (planner_prompt (topic state)) _ 0 s Htimeouts)
      as (str & s' & Hcall & Hmarker).
    fold (_call w (llm self) (planner_prompt (topic state))) in Hcall.
    rewrite planner_spec, llm_invoke_outcome, Hcall; cbn [fst snd planner_result].
    unfold has_error_marker; rewrite Hmarker; cbn [orb].
    eexists; eexists; split; [reflexivity|]; split; reflexivity.
Qed.

Lemma planner_substitutes_fallback_witness :
  exists state' s',
    _research_planner_node (failing_world timed_out) the_graph
      (initial_state "quantum error correction") no_effects = (Return state', s') /\
    research_plan state' = fallback_plan "quantum error correction" /\
    error state' = None.
Proof.
  apply (proj2 (proj2 (planner_substitutes_fallback (failing_world timed_out) the_graph
                         (initial_state "quantum error correction") no_effects))).
  intros k _; eexists; split; reflexivity.
Defined.

(** ** C8 *)

(** C8: the searching stage never clears [error].  On its normal path it
    returns the [error] it was handed, and its own handler writes a non-null
    one; so in every run in which the planning stage recorded an error, the
    final state still has it. *)
Theorem error_is_never_cleared
  (mode : channel_read) (w : world) (self : ResearchGraph) (input : ResearchState)
  (s : effects) :
  (forall state s0,
     exists state' s',
       _web_searcher_node w self state s0 = (Return state', s') /\
       error state' = error state)
  /\
  (forall state e s0,
     exists state', searcher_except state e s0 = (Return state', s0) /\ error state' <> None)
  /\
  (forall planned s1,
     _research_planner_node w self (write_input input) s = (Return planned, s1) ->
     error planned <> None ->
     exists final s2,
       invoke mode w self input s = (Return final, s2) /\
       error final = error planned /\ error final <> None).
Proof.
  split; [|split].
  - intros state s0; rewrite searcher_spec; eexists; eexists; split; reflexivity.
  - intros state e s0; eexists; split; [reflexivity|]; cbn; discriminate.
  - intros planned s1 Hplanned Herror.
    rewrite planner_spec in Hplanned; inversion Hplanned as [[Hst Hs1]]; clear Hplanned.
    rewrite invoke_spec; cbv zeta; cbn [write_input set_messages topic] in *.
    eexists; eexists; split; [reflexivity|].
    assert (Hsame : forall r posts,
      error
        (apply_writes mode
           (apply_writes mode (write_input input) (planner_result (write_input input) r))
           (searcher_result w posts
              (apply_writes mode (write_input input) (planner_result (write_input input) r))))
      = error (planner_result (write_input input) r)) by (intros r posts; reflexivity).
    rewrite Hsame, Hst; split; [reflexivity | exact Herror].
Qed.

Lemma error_is_never_cleared_witness :
  exists final s2,
    invoke SharedObject shapeless_world the_graph (initial_state "X") no_effects
    = (Return final, s2) /\
    error final = Some "Error in research planning: 'choices'".
Proof.
  destruct (proj2 (proj2 (error_is_never_cleared SharedObject shapeless_world the_graph
                            (initial_state "X") no_effects))
              (planner_result (write_input (initial_state "X"))
                 (Raise (mk_exn KeyError "'choices'")))
              (after_post no_effects (planner_prompt "X"))
              eq_refl
              ltac:(discriminate))
    as (final & s2 & Hrun & Herr & _).
  exists final, s2; split; [exact Hrun | exact Herr].
Defined.

(** ** C9 *)

(** The loop of the searching stage consults the provider only at the calls it
    makes: the i-th call, with the i-th query. *)
Lemma search_loop_ext (w1 w2 : world) (queries : list string) :
  forall (posts : nat) (i : Z),
    (forall k, (k < length queries)%nat ->
               search_provider w1 (posts + k) (nth k queries "") 3 =
               search_provider w2 (posts + k) (nth k queries "") 3) ->
    loop_sections w1 posts i queries = loop_sections w2 posts i queries /\
    loop_successes w1 posts queries = loop_successes w2 posts queries.
Proof.
  induction queries as [|q rest IH]; intros posts i Hall; [split; reflexivity|].
  cbn [loop_sections loop_successes].
  pose proof (Hall 0%nat ltac:(cbn; lia)) as H0.
  rewrite Nat.add_0_r in H0; cbn [nth] in H0; rewrite H0.
  destruct (IH (S posts) (i + 1)) as [Hsec Hsuc].
  - intros k Hk.
    replace (S posts + k)%nat with (posts + S k)%nat by lia.
    apply (Hall (S k)); cbn; lia.
  - rewrite Hsec, Hsuc; split; reflexivity.
Qed.

(** C9: two runs on the same topic, in worlds that answer alike the requests
    a run makes (the attempts of the completion client on the planning prompt,
    and the four searches), return the same record, plan and search_results
    included, and leave the same log. *)
Theorem research_topic_deterministic
  (mode : channel_read) (self : ResearchGraph) (the_topic : string) (w1 w2 : world) :
  (forall k, (k < Z.to_nat (max_retries (llm self)))%nat ->
             completion_endpoint w1 k (planner_prompt the_topic) =
             completion_endpoint w2 k (planner_prompt the_topic)) ->
  (forall k, (k < 4)%nat ->
             search_provider w1 k (nth k (search_queries the_topic) "") 3 =
             search_provider w2 k (nth k (search_queries the_topic) "") 3) ->
  research_topic mode w1 self the_topic no_effects =
  research_topic mode w2 self the_topic no_effects.
Proof.
  intros Hllm Hsearch.
  assert (Hinvoke :
    llm_invoke w1 (llm self) (planner_prompt the_topic) no_effects =
    llm_invoke w2 (llm self) (planner_prompt the_topic) no_effects).
  { rewrite !llm_invoke_outcome; unfold _call.
    rewrite (call_loop_ext w1 w2 (llm self) (planner_prompt the_topic) _ 0 no_effects Hllm).
    reflexivity. }
  destruct (search_loop_ext w1 w2 (search_queries the_topic) 0 0 Hsearch) as [Hsec Hsuc].
  unfold research_topic, try_with, bind.
  rewrite !invoke_spec; cbv zeta.
  cbn [initial_state topic]; rewrite Hinvoke.
  set (r := fst (llm_invoke w2 (llm self) (planner_prompt the_topic) no_effects)).
  set (planned := apply_writes mode (write_input (initial_state the_topic))
                    (planner_result (write_input (initial_state the_topic)) r)).
  assert (Htopic : topic planned = the_topic) by (subst planned; destruct r; reflexivity).
  assert (Hsearcher :
    searcher_result w1 (search_posts no_effects) planned =
    searcher_result w2 (search_posts no_effects) planned).
  { unfold searcher_result; rewrite Htopic; cbn [search_posts no_effects].
    rewrite Hsec, Hsuc; reflexivity. }
  rewrite Hsearcher; reflexivity.
Qed.

(** Two worlds that differ only after the requests of a run. *)
Lemma research_topic_deterministic_witness :
  research_topic SharedObject one_success_world the_graph "X" no_effects =
  research_topic SharedObject
    (mk_world (fun n p => if Nat.ltb n 3 then completion_endpoint one_success_world n p
                          else timed_out)
              (fun n q m => if Nat.ltb n 4 then search_provider one_success_world n q m
                            else ok_response no_results))
    the_graph "X" no_effects.
Proof.
  apply research_topic_deterministic.
  - intros k Hk; destruct k as [|[|[|k]]]; [reflexivity | reflexivity | reflexivity |].
    cbn in Hk; lia.
  - intros k Hk; destruct k as [|[|[|[|k]]]];
      [reflexivity | reflexivity | reflexivity | reflexivity | lia].
Defined.

(** ** C10 *)

Lemma invoke_next_step (mode : channel_read) (w : world) (self : ResearchGraph)
  (input : ResearchState) (s : effects) :
  exists final s', invoke mode w self input s = (Return final, s') /\
                   next_step final = "complete".
Proof.
  rewrite invoke_spec; cbv zeta; eexists; eexists; split; reflexivity.
Qed.

Lemma invoke_messages_length (mode : channel_read) (w : world) (self : ResearchGraph)
  (input : ResearchState) (s : effects) :
  let r := fst (llm_invoke w (llm self) (planner_prompt (topic input)) s) in
  let grown := match r with Return _ => 1%nat | Raise _ => 0%nat end in
  let m := length (messages input) in
  exists final s',
    invoke mode w self input s = (Return final, s') /\
    length (messages final) =
    match mode with
    | SharedObject => (2 * (2 * (m + grown) + 1))%nat
    | FreshCopy => (m + (m + grown) + (m + (m + grown) + 1))%nat
    end.
Proof.
  cbv zeta; rewrite invoke_spec; cbv zeta; eexists; eexists; split; [reflexivity|].
  destruct (fst (llm_invoke w (llm self) (planner_prompt (topic input)) s)); destruct mode;
    cbn [apply_writes write_input planner_result searcher_result set_next_step append_message
         set_research_plan set_search_results set_messages set_error messages];
    rewrite ?length_app; cbn [length app]; lia.
Qed.

(** C10, as stated, fails: in a run whose planning stage catches an exception
    (the completion body has no [choices]) the searching stage still runs and
    sets next_step, so after the run next_step is "complete" and does not name
    the planning stage. *)
Lemma next_step_complete_after_planner_exception :
  (exists e s1,
     planner_try shapeless_world the_graph (write_input (initial_state "X")) no_effects
     = (Raise e, s1))
  /\
  exists final s',
    invoke SharedObject shapeless_world the_graph (initial_state "X") no_effects
    = (Return final, s') /\
    next_step final = "complete" /\ next_step final <> "research_planner".
Proof.
  split.
  - eexists; eexists; vm_compute; reflexivity.
  - eexists; eexists; split; [vm_compute; reflexivity|].
    split; [reflexivity | discriminate].
Qed.

(** C10, amended: when the body of the planning stage raises, the stage returns
    the state it was handed with only [error] and [research_plan] rewritten: no
    message is appended and next_step is left as it was, so the state the stage
    returns has one message fewer than the one its exception-free path returns,
    and next_step still names the planning stage when the stage was entered
    with it.  The searching stage then runs all the same: after the run
    next_step is "complete", and [messages] is shorter than after an
    exception-free run on the same input. *)
Theorem planner_exception_frame
  (mode : channel_read) (w : world) (self : ResearchGraph) (input : ResearchState)
  (s : effects) (e : exn) (s1 : effects) :
  planner_try w self (write_input input) s = (Raise e, s1) ->
  exists state',
    _research_planner_node w self (write_input input) s = (Return state', s1) /\
    error state' = Some ("Error in research planning: " ++ exn_str e) /\
    research_plan state' =
      "Basic research plan for: " ++ topic input ++ " (Error occurred in detailed planning)" /\
    messages state' = messages input /\
    next_step state' = next_step input /\
    topic state' = topic input /\
    search_results state' = search_results input /\
    analysis state' = analysis input /\
    final_report state' = final_report input /\
    (forall w2 s2 state2 s2',
       planner_try w2 self (write_input input) s2 = (Return state2, s2') ->
       length (messages state2) = S (length (messages state')) /\
       next_step state2 = "web_searcher" /\
       exists final final2 t t2,
         invoke mode w self input s = (Return final, t) /\
         invoke mode w2 self input s2 = (Return final2, t2) /\
         next_step final = "complete" /\
         (length (messages final) < length (messages final2))%nat).
Proof.
  intros Hraise.
  rewrite planner_try_outcome in Hraise.
  rewrite planner_spec.
  destruct (llm_invoke w (llm self) (planner_prompt (topic (write_input input))) s)
    as [[t|e'] s'] eqn:Hinvoke; [discriminate|].
  inversion Hraise; subst e' s'; clear Hraise.
  eexists; split; [reflexivity|].
  cbn [fst planner_result]. 
  do 8 (split; [reflexivity|]).
  intros w2 s2 state2 s2' Hreturn.
  rewrite planner_try_outcome in Hreturn.
  destruct (llm_invoke w2 (llm self) (planner_prompt (topic (write_input input))) s2)
    as [[t2|e2] s2''] eqn:Hinvoke2; [|discriminate].
  inversion Hreturn; subst state2 s2''; clear Hreturn.
  split; [cbn; rewrite length_app; cbn; lia|].
  split; [reflexivity|].
  cbn [write_input set_messages topic] in Hinvoke, Hinvoke2.
  destruct (invoke_messages_length mode w self input s) as (final & t' & Hrun & Hlen).
  destruct (invoke_messages_length mode w2 self input s2) as (final2 & t2' & Hrun2 & Hlen2).
  cbv zeta in Hlen, Hlen2; rewrite Hinvoke in Hlen; rewrite Hinvoke2 in Hlen2.
  cbn [fst] in Hlen, Hlen2.
  exists final, final2, t', t2'; split; [exact Hrun|]; split; [exact Hrun2|].
  split.
  - destruct (invoke_next_step mode w self input s) as (f & t0 & Hrun0 & Hnext).
    rewrite Hrun in Hrun0; inversion Hrun0; subst; exact Hnext.
  - rewrite Hlen, Hlen2; destruct mode; lia.
Qed.

Lemma planner_exception_frame_witness :
  exists state' s1,
    _research_planner_node shapeless_world the_graph (write_input (initial_state "X")) no_effects
    = (Return state', s1) /\
    messages state' = [HumanMessage "Research topic: X"] /\
    next_step state' = "research_planner".
Proof.
  destruct (planner_exception_frame SharedObject shapeless_world the_graph (initial_state "X")
              no_effects (mk_exn KeyError "'choices'")
              (after_post no_effects (planner_prompt "X")) eq_refl)
    as (state' & Hnode & _ & _ & Hmessages & Hnext & _).
  exists state', (after_post no_effects (planner_prompt "X")).
  split; [exact Hnode|]; split; [exact Hmessages | exact Hnext].
Defined.


(** * Further properties of the code *)

(** ** The effects of the completion client *)

Lemma log_after_backoff (self : LMStudioLLM) (attempt : Z) (s : effects) :
  log (after_backoff self attempt s) =
  (log s ++ if attempt <? max_retries self - 1 then [Sleep (2 ^ attempt)] else [])%list.
Proof.
  unfold after_backoff; destruct (attempt <? max_retries self - 1); cbn [log after_sleep].
  - reflexivity.
  - rewrite app_nil_r; reflexivity.
Qed.

Lemma total_sleep_app (l1 l2 : list event) :
  total_sleep (l1 ++ l2) = total_sleep l1 + total_sleep l2.
Proof.
  induction l1 as [|e l1 IH]; cbn [app total_sleep fold_right]; [reflexivity|].
  fold (total_sleep (l1 ++ l2)); fold (total_sleep l1); rewrite IH; lia.
Qed.

Lemma pow2_pos (a : Z) : 0 <= a -> 0 < 2 ^ a.
Proof. intros; apply Z.pow_pos_nonneg; lia. Qed.

Lemma pow2_succ (a : Z) : 0 <= a -> 2 ^ (a + 1) = 2 * 2 ^ a.
Proof. intros; rewrite Z.pow_add_r by lia; lia. Qed.

Lemma pow2_le (a b : Z) : 0 <= a <= b -> 2 ^ a <= 2 ^ b.
Proof. intros; apply Z.pow_le_mono_r; lia. Qed.

(** What the loop adds to the log: POSTs of the prompt and backoff sleeps, the
    sleeps adding up to less than the next power of two. *)
Lemma call_loop_added (w : world) (self : LMStudioLLM) (prompt : string) (n : nat) :
  forall (attempt : Z) (s : effects),
    0 <= attempt ->
    attempt + Z.of_nat n = max_retries self ->
    exists added,
      log (snd (call_loop w self prompt n attempt s)) = (log s ++ added)%list /\
      Forall (fun e => e = LlmPost prompt \/
                       exists i, attempt <= i < max_retries self - 1 /\ e = Sleep (2 ^ i))
             added /\
      0 <= total_sleep added /\
      total_sleep added + 2 ^ attempt <= 2 ^ Z.max attempt (max_retries self - 1).
Proof.
  induction n as [|n IH]; intros attempt s Ha Hmax.
  - exists []; cbn [call_loop ret snd]; rewrite app_nil_r.
    split; [reflexivity|]; split; [constructor|]; cbn.
    rewrite Z.max_l by lia; lia.
  - assert (Hlast : attempt <= max_retries self - 1) by lia.
    assert (Hbound : 2 ^ attempt <= 2 ^ (max_retries self - 1)) by (apply pow2_le; lia).
    rewrite Z.max_r by lia.
    assert (Hnext : forall s1 tail,
      log s1 = (log s ++ LlmPost prompt :: tail)%list ->
      Forall (fun e => e = LlmPost prompt \/
                       exists i, attempt <= i < max_retries self - 1 /\ e = Sleep (2 ^ i)) tail ->
      0 <= total_sleep tail <= 2 ^ attempt ->
      (total_sleep tail = 0 \/ attempt < max_retries self - 1) ->
      exists added,
        log (snd (call_loop w self prompt n (attempt + 1) s1)) = (log s ++ added)%list /\
        Forall (fun e => e = LlmPost prompt \/
                         exists i, attempt <= i < max_retries self - 1 /\ e = Sleep (2 ^ i))
               added /\
        0 <= total_sleep added /\
        total_sleep added + 2 ^ attempt <= 2 ^ (max_retries self - 1)).
    { intros s1 tail Hlog Htail Htotal Hcase.
      destruct (IH (attempt + 1) s1 ltac:(lia) ltac:(lia)) as (rest & Hrest & Hall & Hge & Hle).
      exists (LlmPost prompt :: tail ++ rest)%list.
      rewrite Hrest, Hlog, <- app_assoc; cbn [app].
      split; [reflexivity|]; split; [|split].
      - constructor; [left; reflexivity|].
        apply Forall_app; split; [exact Htail|].
        eapply Forall_impl; [|exact Hall].
        intros e [He|(i & Hi & He)]; [left; exact He | right; exists i; split; [lia | exact He]].
      - change (LlmPost prompt :: tail ++ rest)%list
          with ([LlmPost prompt] ++ (tail ++ rest))%list.
        rewrite !total_sleep_app; cbn [total_sleep fold_right sleep_seconds]; lia.
      - change (LlmPost prompt :: tail ++ rest)%list
          with ([LlmPost prompt] ++ (tail ++ rest))%list.
        rewrite !total_sleep_app; cbn [total_sleep fold_right sleep_seconds].
        pose proof (pow2_succ attempt Ha) as Hsucc.
        destruct (Z.max_spec (attempt + 1) (max_retries self - 1)) as [[Hlt Hm]|[Hlt Hm]];
          rewrite Hm in Hle.
        + assert (2 ^ (attempt + 1) <= 2 ^ (max_retries self - 1)) by (apply pow2_le; lia).
          lia.
        + destruct (Z.eq_dec (max_retries self - 1) attempt) as [Heq|Hne].
          * rewrite Heq in *; lia.
          * assert (Heq : max_retries self - 1 = attempt + 1) by lia.
            rewrite Heq in *; lia. }
    rewrite call_loop_step.
    destruct (attempt_value self attempt (completion_endpoint w (llm_posts s) prompt))
      as [[v| |]|e].
    + exists [LlmPost prompt]; cbn [snd after_post log].
      split; [reflexivity|]; split; [repeat constructor|]; cbn; lia.
    + pose proof (pow2_pos attempt Ha).
      apply (Hnext (after_post s prompt) []); [reflexivity | constructor | cbn; lia | auto].
    + pose proof (pow2_pos attempt Ha).
      destruct (attempt <? max_retries self - 1) eqn:Hlt.
      * apply (Hnext (after_backoff self attempt (after_post s prompt)) [Sleep (2 ^ attempt)]).
        -- rewrite log_after_backoff, Hlt; cbn [after_post log].
           rewrite <- app_assoc; reflexivity.
        -- constructor; [|constructor].
           apply Z.ltb_lt in Hlt; right; exists attempt; split; [lia | reflexivity].
        -- cbn; lia.
        -- right; apply Z.ltb_lt; exact Hlt.
      * apply (Hnext (after_backoff self attempt (after_post s prompt)) []).
        -- rewrite log_after_backoff, Hlt, app_nil_r; reflexivity.
        -- constructor.
        -- cbn; lia.
        -- left; reflexivity.
    + exists [LlmPost prompt]; cbn [snd after_post log].
      split; [reflexivity|]; split; [repeat constructor|]; cbn; lia.
Qed.

Lemma call_added (w : world) (self : LMStudioLLM) (prompt : string) (s : effects) :
  exists added,
    log (snd (_call w self prompt s)) = (log s ++ added)%list /\
    Forall (fun e => e = LlmPost prompt \/
                     exists i, 0 <= i < max_retries self - 1 /\ e = Sleep (2 ^ i)) added /\
    0 <= total_sleep added /\
    total_sleep added <= 2 ^ Z.max 0 (max_retries self - 1) - 1.
Proof.
  unfold _call.
  destruct (Z.le_gt_cases 0 (max_retries self)) as [Hge|Hlt].
  - destruct (call_loop_added w self prompt (Z.to_nat (max_retries self)) 0 s
                ltac:(lia) ltac:(lia)) as (added & Hlog & Hall & Hpos & Hle).
    exists added; repeat split; auto.
    change (2 ^ 0) with 1 in Hle; lia.
  - replace (Z.to_nat (max_retries self)) with 0%nat by lia.
    exists []; cbn [call_loop ret snd]; rewrite app_nil_r.
    split; [reflexivity|]; split; [constructor|].
    rewrite Z.max_l by lia; cbn; lia.
Qed.

(** Whatever the endpoint does, a call of the completion client adds to the log
    only POSTs of its own prompt and sleeps of 2^i seconds with
    0 <= i < max_retries - 1; it makes at most [max_retries] POSTs and none to
    the search provider. *)
Theorem call_only_posts_and_backs_off
  (w : world) (self : LMStudioLLM) (prompt : string) (s : effects) :
  exists added,
    log (snd (_call w self prompt s)) = (log s ++ added)%list /\
    Forall (fun e => e = LlmPost prompt \/
                     exists i, 0 <= i < max_retries self - 1 /\ e = Sleep (2 ^ i)) added /\
    (llm_posts (snd (_call w self prompt s)) <= llm_posts s + Z.to_nat (max_retries self))%nat /\
    search_posts (snd (_call w self prompt s)) = search_posts s.
Proof.
  destruct (call_added w self prompt s) as (added & Hlog & Hall & _).
  exists added; split; [exact Hlog|]; split; [exact Hall|]; split.
  - apply call_loop_posts.
  - apply call_loop_search_posts.
Qed.

(** The time a call of the completion client sleeps is at most
    2^(max_retries - 1) - 1 seconds (3 seconds with the default of 3 attempts),
    and none when [max_retries] is 1 or less. *)
Theorem call_total_sleep_bounded
  (w : world) (self : LMStudioLLM) (prompt : string) (s : effects) :
  exists added,
    log (snd (_call w self prompt s)) = (log s ++ added)%list /\
    0 <= total_sleep added <= 2 ^ Z.max 0 (max_retries self - 1) - 1 /\
    (max_retries self <= 1 -> total_sleep added = 0) /\
    (max_retries self = 3 -> total_sleep added <= 3).
Proof.
  destruct (call_added w self prompt s) as (added & Hlog & _ & Hpos & Hle).
  exists added; split; [exact Hlog|]; split; [lia|]; split.
  - intros Hone; rewrite Z.max_l in Hle by lia; change (2 ^ 0) with 1 in Hle; lia.
  - intros Hthree; rewrite Hthree in Hle; change (2 ^ Z.max 0 (3 - 1) - 1) with 3 in Hle; lia.
Qed.

Lemma call_total_sleep_bounded_witness :
  exists added,
    log (snd (_call (failing_world timed_out) (llm the_graph) "Say 'Hello'" no_effects))
    = added /\
    total_sleep added <= 3.
Proof.
  destruct (call_total_sleep_bounded (failing_world timed_out) (llm the_graph) "Say 'Hello'"
              no_effects) as (added & Hlog & _ & _ & Hthree).
  exists added; split; [exact Hlog | apply Hthree; reflexivity].
Defined.

(** ** Retrying *)

Lemma attempt_except_retry (self : LMStudioLLM) (attempt : Z) (e : exn) :
  is_request_exception (class_of e) = true ->
  attempt <> max_retries self - 1 ->
  attempt_except self attempt e = Return FallThrough.
Proof.
  intros Hc Hne; apply Z.eqb_neq in Hne.
  unfold attempt_except; destruct (class_of e); try discriminate; rewrite Hne; reflexivity.
Qed.

Lemma call_loop_schedule (w : world) (self : LMStudioLLM) (prompt : string)
  (r : response json) (body v : json) (k : nat) :
  forall (n : nat) (attempt : Z) (s : effects),
    (k < n)%nat ->
    attempt + Z.of_nat k < max_retries self ->
    (forall i, (i < k)%nat ->
               raises_request (completion_endpoint w (llm_posts s + i) prompt) = true) ->
    completion_endpoint w (llm_posts s + k) prompt = Responded r ->
    status_code r = 200 ->
    json_body r = Return body ->
    message_content body = Return v ->
    call_loop w self prompt n attempt s =
    (Return v,
     mk_effects (llm_posts s + S k) (search_posts s)
                (log s ++ backoff_log prompt k attempt ++ [LlmPost prompt])).
Proof.
  induction k as [|k IH]; intros n attempt s Hn Hmax Hfail Ho Hs Hb Hm;
    (destruct n as [|n]; [lia|]); rewrite call_loop_step.
  - rewrite Nat.add_0_r in Ho; rewrite Ho.
    unfold attempt_value, attempt_body; rewrite Hs, Hb; cbn [Z.eqb Pos.eqb and_then].
    rewrite Hm; cbn [and_then backoff_log app]; unfold after_post.
    rewrite Nat.add_1_r; reflexivity.
  - pose proof (Hfail 0%nat ltac:(lia)) as H0; rewrite Nat.add_0_r in H0.
    destruct (completion_endpoint w (llm_posts s) prompt) as [r0|e]; [discriminate|].
    cbn [raises_request] in H0.
    unfold attempt_value, attempt_body.
    rewrite (attempt_except_retry self attempt e H0) by lia.
    rewrite (IH n (attempt + 1) (after_backoff self attempt (after_post s prompt)));
      try assumption; try lia.
    + rewrite llm_posts_after_backoff, search_posts_after_backoff, log_after_backoff.
      replace (attempt <? max_retries self - 1) with true by (symmetry; apply Z.ltb_lt; lia).
      cbn [after_post llm_posts search_posts log backoff_log].
      f_equal; f_equal; [lia|].
      rewrite <- !app_assoc; reflexivity.
    + intros i Hi; rewrite llm_posts_after_backoff; cbn [after_post llm_posts].
      replace (S (llm_posts s) + i)%nat with (llm_posts s + S i)%nat by lia.
      apply Hfail; lia.
    + rewrite llm_posts_after_backoff; cbn [after_post llm_posts].
      replace (S (llm_posts s) + k)%nat with (llm_posts s + S k)%nat by lia.
      exact Ho.
Qed.

(** When the first [k] attempts raise exceptions of the [requests] family
    (timeouts, connection failures, others) and the next one, still within
    [max_retries], is answered 200 with a well-shaped body, the client returns
    that body's content after exactly [k + 1] POSTs, having slept 1, 2, ...,
    2^(k-1) seconds between them. *)
Theorem call_retries_then_succeeds
  (w : world) (self : LMStudioLLM) (prompt : string) (s : effects)
  (k : nat) (r : response json) (body v : json) :
  Z.of_nat k < max_retries self ->
  (forall i, (i < k)%nat ->
             raises_request (completion_endpoint w (llm_posts s + i) prompt) = true) ->
  completion_endpoint w (llm_posts s + k) prompt = Responded r ->
  status_code r = 200 ->
  json_body r = Return body ->
  message_content body = Return v ->
  _call w self prompt s =
  (Return v,
   mk_effects (llm_posts s + S k) (search_posts s)
              (log s ++ backoff_log prompt k 0 ++ [LlmPost prompt])).
Proof.
  intros Hk Hfail Ho Hs Hb Hm; unfold _call.
  apply (call_loop_schedule w self prompt r body v k); try assumption; lia.
Qed.

Lemma call_retries_then_succeeds_witness :
  _call recovering_world (llm the_graph) "Say 'Hello'" no_effects =
  (Return (JStr "PLAN"),
   mk_effects 3 0 [LlmPost "Say 'Hello'"; Sleep 1; LlmPost "Say 'Hello'"; Sleep 2;
                   LlmPost "Say 'Hello'"]).
Proof.
  apply (call_retries_then_succeeds recovering_world (llm the_graph) "Say 'Hello'" no_effects
           2 (mk_response 200 "" (Return (completion_body (JStr "PLAN"))))
           (completion_body (JStr "PLAN")) (JStr "PLAN")).
  - reflexivity.
  - intros i Hi; destruct i as [|[|i]]; [reflexivity | reflexivity | lia].
  - reflexivity.
  - reflexivity.
  - reflexivity.
  - reflexivity.
Defined.

Lemma retryable_continues (self : LMStudioLLM) (attempt : Z) (o : outcome json) :
  retryable o = true ->
  attempt <> max_retries self - 1 ->
  attempt_value self attempt o = Return Continue \/
  attempt_value self attempt o = Return FallThrough.
Proof.
  intros Hr Hne; unfold attempt_value, attempt_body.
  destruct o as [r|e]; cbn [retryable] in Hr.
  - apply negb_true_iff in Hr; rewrite Hr.
    apply Z.eqb_neq in Hne; rewrite Hne; left; reflexivity.
  - right; apply attempt_except_retry; assumption.
Qed.

Lemma call_loop_exhaust (w : world) (self : LMStudioLLM) (prompt : string) (n : nat) :
  forall (attempt : Z) (s : effects),
    attempt + Z.of_nat (S n) = max_retries self ->
    (forall i, (i < n)%nat ->
               retryable (completion_endpoint w (llm_posts s + i) prompt) = true) ->
    fst (call_loop w self prompt (S n) attempt s) =
    match attempt_value self (max_retries self - 1)
            (completion_endpoint w (llm_posts s + n) prompt) with
    | Return (Exit v) => Return v
    | Return _ => Return (JStr "Error: All retry attempts failed")
    | Raise e => Raise e
    end.
Proof.
  induction n as [|n IH]; intros attempt s Hmax Hretry; rewrite call_loop_step.
  - rewrite Nat.add_0_r.
    replace attempt with (max_retries self - 1) by lia.
    destruct (attempt_value self (max_retries self - 1)
                (completion_endpoint w (llm_posts s) prompt)) as [[v| |]|e]; reflexivity.
  - pose proof (Hretry 0%nat ltac:(lia)) as H0; rewrite Nat.add_0_r in H0.
    assert (Hstep : forall s1, llm_posts s1 = S (llm_posts s) ->
      fst (call_loop w self prompt (S n) (attempt + 1) s1) =
      match attempt_value self (max_retries self - 1)
              (completion_endpoint w (llm_posts s + S n) prompt) with
      | Return (Exit v) => Return v
      | Return _ => Return (JStr "Error: All retry attempts failed")
      | Raise e => Raise e
      end).
    { intros s1 Hs1; rewrite IH; [| lia |].
      - rewrite Hs1; replace (S (llm_posts s) + n)%nat with (llm_posts s + S n)%nat by lia.
        reflexivity.
      - intros i Hi; rewrite Hs1.
        replace (S (llm_posts s) + i)%nat with (llm_posts s + S i)%nat by lia.
        apply Hretry; lia. }
    destruct (retryable_continues self attempt _ H0 ltac:(lia)) as [Hv|Hv]; rewrite Hv.
    + apply Hstep; reflexivity.
    + apply Hstep; rewrite llm_posts_after_backoff; reflexivity.
Qed.

(** When every attempt but the last ends in a failure status or in an exception
    of the [requests] family, the text the client returns reports the last
    attempt alone: its status and body text, the timeout, the connection
    failure with the base URL, or the message of another request exception. *)
Theorem call_reports_last_failure
  (w : world) (self : LMStudioLLM) (prompt : string) (s : effects) (n : nat) :
  max_retries self = Z.of_nat (S n) ->
  (forall i, (i < n)%nat ->
             retryable (completion_endpoint w (llm_posts s + i) prompt) = true) ->
  let last := completion_endpoint w (llm_posts s + n) prompt in
  (forall r, last = Responded r -> status_code r <> 200 ->
     fst (_call w self prompt s) =
     Return (JStr ("Error: " ++ str_of_int (status_code r) ++ " - " ++ text r)))
  /\
  (forall e, last = Failed e -> class_of e = Timeout ->
     fst (_call w self prompt s) =
     Return (JStr ("Error: Request timed out after " ++ str_of_int (timeout self)
                   ++ " seconds. Please check if LM Studio is running and responsive.")))
  /\
  (forall e, last = Failed e -> class_of e = ConnectionError ->
     fst (_call w self prompt s) =
     Return (JStr ("Error: Cannot connect to LM Studio at " ++ base_url self
                   ++ ". Please ensure LM Studio is running.")))
  /\
  (forall e, last = Failed e -> class_of e = RequestException ->
     fst (_call w self prompt s) =
     Return (JStr ("Error connecting to LM Studio: " ++ exn_str e))).
Proof.
  intros Hmax Hretry last.
  assert (Hcall : fst (_call w self prompt s) =
    match attempt_value self (max_retries self - 1) last with
    | Return (Exit v) => Return v
    | Return _ => Return (JStr "Error: All retry attempts failed")
    | Raise e => Raise e
    end).
  { unfold _call; rewrite Hmax, Nat2Z.id.
    rewrite (call_loop_exhaust w self prompt n 0 s); [|lia|exact Hretry].
    rewrite Hmax; reflexivity. }
  rewrite Hcall; unfold attempt_value, attempt_body, attempt_except.
  repeat split.
  - intros r Hlast Hs; rewrite Hlast.
    apply Z.eqb_neq in Hs; rewrite Hs, Z.eqb_refl; reflexivity.
  - intros e Hlast Hc; rewrite Hlast, Hc, Z.eqb_refl; reflexivity.
  - intros e Hlast Hc; rewrite Hlast, Hc, Z.eqb_refl; reflexivity.
  - intros e Hlast Hc; rewrite Hlast, Hc, Z.eqb_refl; reflexivity.
Qed.

Lemma call_reports_last_failure_witness :
  fst (_call (failing_world timed_out) (llm the_graph) "Say 'Hello'" no_effects) =
  Return (JStr "Error: Request timed out after 180 seconds. Please check if LM Studio is running and responsive.").
Proof.
  apply (proj1 (proj2 (call_reports_last_failure (failing_world timed_out) (llm the_graph)
                         "Say 'Hello'" no_effects 2 eq_refl
                         (fun i _ => eq_refl)))
               (mk_exn Timeout "HTTPConnectionPool(host='127.0.0.1', port=1234): Read timed out.")
               eq_refl eq_refl).
Defined.

(** ** More on strings *)

Lemma append_assoc (a b c : string) : (a ++ b) ++ c = a ++ (b ++ c).
Proof. induction a as [|x a IH]; cbn [append]; [reflexivity | rewrite IH; reflexivity]. Qed.

Lemma append_nil_r_local (a : string) : a ++ "" = a.
Proof. induction a as [|x a IH]; cbn [append]; [reflexivity | rewrite IH; reflexivity]. Qed.

Lemma append_length (a b : string) :
  String.length (a ++ b) = (String.length a + String.length b)%nat.
Proof. induction a as [|x a IH]; cbn [append String.length plus]; [reflexivity | rewrite IH; reflexivity]. Qed.

Lemma append_inv_head (a b c : string) : a ++ b = a ++ c -> b = c.
Proof.
  induction a as [|x a IH]; cbn [append]; intros H; [exact H|].
  inversion H; auto.
Qed.

Lemma append_neq_self (a b : string) : b <> "" -> a ++ b <> a.
Proof.
  intros Hb H; apply (f_equal String.length) in H; rewrite append_length in H.
  destruct b; [congruence | cbn in H; lia].
Qed.

Lemma prefix_app_l (sub a b : string) :
  prefix sub a = true -> prefix sub (a ++ b) = true.
Proof.
  revert a; induction sub as [|c sub IH]; intros a H; [apply prefix_empty|].
  destruct a as [|d a]; cbn [prefix append] in *; [discriminate|].
  destruct (ascii_dec c d); [apply IH; exact H | discriminate].
Qed.

Lemma contains_app_l (sub a b : string) :
  contains sub a = true -> contains sub (a ++ b) = true.
Proof.
  induction a as [|c a IH]; intros H; cbn [contains] in H.
  - rewrite orb_false_r in H.
    apply contains_prefix, (prefix_app_l sub "" b H).
  - apply orb_true_iff in H; destruct H as [H|H].
    + apply contains_prefix, (prefix_app_l sub (String c a) b H).
    + cbn [append contains]; rewrite (IH H); apply orb_true_r.
Qed.

Lemma slice_to_length (n : nat) (s : string) :
  String.length (slice_to n s) = Nat.min n (String.length s).
Proof.
  unfold slice_to; revert s; induction n as [|n IH]; intros s.
  - destruct s; reflexivity.
  - destruct s as [|c s]; cbn [substring String.length Nat.min]; [reflexivity|].
    rewrite IH; reflexivity.
Qed.

Lemma slice_to_prefix (n : nat) (s : string) : prefix (slice_to n s) s = true.
Proof.
  unfold slice_to; revert s; induction n as [|n IH]; intros s.
  - destruct s; reflexivity.
  - destruct s as [|c s]; cbn [substring prefix]; [reflexivity|].
    destruct (ascii_dec c c); [apply IH | contradiction].
Qed.

Lemma slice_to_all (n : nat) (s : string) :
  (String.length s <= n)%nat -> slice_to n s = s.
Proof.
  unfold slice_to; revert s; induction n as [|n IH]; intros s Hlen.
  - destruct s; [reflexivity | cbn in Hlen; lia].
  - destruct s as [|c s]; cbn [substring]; [reflexivity|].
    rewrite IH; [reflexivity | cbn in Hlen; lia].
Qed.

(** ** The search tool *)

(** A call of the search tool makes exactly one POST, of its own query, and
    none to the completion endpoint; no exception of the [requests] family
    ever leaves it; and when the provider answers a status other than 200, or
    the POST raises an exception of that family, it returns a text with the
    marker "Error:". *)
Theorem run_posts_once_and_confines_request_errors
  (w : world) (self : TavilySearchTool) (query : string) (max_results : Z) (s : effects) :
  snd (_run w self query max_results s) =
    mk_effects (llm_posts s) (S (search_posts s)) (log s ++ [SearchPost query]) /\
  (forall e, fst (_run w self query max_results s) = Raise e ->
             is_request_exception (class_of e) = false) /\
  (forall r, search_provider w (search_posts s) query max_results = Responded r ->
             status_code r <> 200 ->
             exists err, fst (_run w self query max_results s) = Return err /\
                         contains "Error:" err = true) /\
  (forall e, search_provider w (search_posts s) query max_results = Failed e ->
             is_request_exception (class_of e) = true ->
             exists err, fst (_run w self query max_results s) = Return err /\
                         contains "Error:" err = true).
Proof.
  rewrite run_outcome; cbn [fst snd]; split; [reflexivity|].
  unfold run_value, run_body; split; [|split].
  - intros e.
    destruct (search_provider w (search_posts s) query max_results) as [r|e0].
    + destruct (status_code r =? 200); [|discriminate].
      destruct (json_body r) as [data|e1]; cbn [and_then].
      * destruct (format_sources 1 (results data) (format_header query data)) as [t|e2];
          [discriminate|].
        destruct (is_request_exception (class_of e2)) eqn:Hc; [discriminate|].
        intros H; inversion H; subst; exact Hc.
      * destruct (is_request_exception (class_of e1)) eqn:Hc; [discriminate|].
        intros H; inversion H; subst; exact Hc.
    + destruct (is_request_exception (class_of e0)) eqn:Hc; [discriminate|].
      intros H; inversion H; subst; exact Hc.
  - intros r Ho Hs; rewrite Ho.
    apply Z.eqb_neq in Hs; rewrite Hs.
    eexists; split; reflexivity.
  - intros e Ho Hc; rewrite Ho, Hc.
    eexists; split; reflexivity.
Qed.

Lemma run_posts_once_and_confines_request_errors_witness :
  exists err,
    fst (_run (failing_world timed_out) (search_tool the_graph) "hello world test" 1 no_effects)
    = Return err /\
    contains "Error:" err = true.
Proof.
  apply (proj1 (proj2 (proj2 (run_posts_once_and_confines_request_errors
                  (failing_world timed_out) (search_tool the_graph) "hello world test" 1
                  no_effects)))
               (mk_response 401 "Unauthorized" (Raise (mk_exn RequestException "Expecting value")))
               eq_refl).
  intros H; discriminate H.
Defined.

Lemma format_source_returns (i : Z) (src : source) :
  content src <> Null -> exists entry, format_source i src = Return entry.
Proof.
  intros Hc; unfold format_source.
  destruct (content src); [| contradiction |]; cbn [get_slice and_then]; eexists; reflexivity.
Qed.

Lemma format_sources_extends (sources : list source) :
  forall (i : Z) (acc : string),
    (forall src, In src sources -> content src <> Null) ->
    exists rest, format_sources i sources acc = Return (acc ++ rest).
Proof.
  induction sources as [|src sources IH]; intros i acc Hok; cbn [format_sources].
  - exists ""; rewrite append_nil_r_local; reflexivity.
  - destruct (format_source_returns i src (Hok src (or_introl eq_refl))) as [entry He].
    rewrite He; cbn [and_then].
    destruct (IH (i + 1) (acc ++ entry) (fun x Hx => Hok x (or_intror Hx))) as [rest Hrest].
    rewrite Hrest; exists (entry ++ rest); rewrite append_assoc; reflexivity.
Qed.




(** The snippet of a source whose [content] is a string is its first 300
    characters: a prefix of the content, never longer than 300, and the whole
    content when that has at most 300 characters.  The entry puts "..." after
    the snippet whether or not anything was cut. *)
Theorem format_source_truncates_content (i : Z) (src : source) (c : string) :
  content src = Text c ->
  exists snippet,
    format_source i src =
      Return (nl ++ "**" ++ str_of_int i ++ ". " ++ get_str (title src) "Untitled Source"
              ++ "**" ++ nl
              ++ "- **URL:** " ++ get_str (url src) "#" ++ nl
              ++ "- **Content:** " ++ snippet ++ "..." ++ nl ++ nl ++ "---" ++ nl) /\
    prefix snippet c = true /\
    (String.length snippet <= 300)%nat /\
    String.length snippet = Nat.min 300 (String.length c) /\
    ((String.length c <= 300)%nat -> snippet = c).
Proof.
  intros Hc; exists (slice_to 300 c).
  unfold format_source; rewrite Hc; cbn [get_slice and_then].
  split; [reflexivity|]; split; [apply slice_to_prefix|].
  rewrite slice_to_length; split; [apply Nat.le_min_l|]; split; [reflexivity|].
  apply slice_to_all.
Qed.

Lemma format_source_truncates_content_witness :
  exists snippet,
    format_source 1 (mk_source (Text "First") (Text "https://a.example") (Text "alpha"))
    = Return (nl ++ "**1. First**" ++ nl ++ "- **URL:** https://a.example" ++ nl
              ++ "- **Content:** " ++ snippet ++ "..." ++ nl ++ nl ++ "---" ++ nl) /\
    snippet = "alpha".
Proof.
  destruct (format_source_truncates_content 1
              (mk_source (Text "First") (Text "https://a.example") (Text "alpha")) "alpha"
              eq_refl) as (snippet & Hfmt & _ & _ & _ & Hall).
  exists snippet; split; [exact Hfmt|].
  apply Hall; cbn; lia.
Defined.

(** ** The query variants and the success count *)

(** The four query variants of a topic are pairwise distinct, whatever the
    topic (the empty one included), and each starts with the topic. *)
Theorem search_queries_distinct (the_topic : string) :
  NoDup (search_queries the_topic) /\
  length (search_queries the_topic) = 4%nat /\
  Forall (fun q => prefix the_topic q = true) (search_queries the_topic).
Proof.
  unfold search_queries; split; [|split; [reflexivity|]].
  - assert (Hself : forall suffix, suffix <> "" -> the_topic <> the_topic ++ suffix).
    { intros suffix Hne H; symmetry in H; exact (append_neq_self _ _ Hne H). }
    assert (Hdiff : forall a b, a <> b -> the_topic ++ a <> the_topic ++ b).
    { intros a b Hne H; apply Hne, (append_inv_head _ _ _ H). }
    repeat constructor; cbn [In]; intros H;
      repeat (destruct H as [H|H]);
      try contradiction;
      try contradiction;
      try (symmetry in H; revert H; apply Hself; discriminate);
      try (revert H; apply Hdiff; discriminate).
  - repeat constructor; try apply prefix_app.
    rewrite <- (append_nil_r_local the_topic) at 2; apply prefix_app.
Qed.

Lemma loop_successes_bounds (w : world) (queries : list string) :
  forall posts, 0 <= loop_successes w posts queries <= Z.of_nat (length queries).
Proof.
  induction queries as [|q rest IH]; intros posts; cbn [loop_successes length]; [lia|].
  specialize (IH (S posts)).
  destruct (run_value q (search_provider w posts q 3)) as [t|e];
    [destruct (negb (contains "Error:" t))|]; lia.
Qed.

Lemma loop_successes_all_fail (w : world) (queries : list string) :
  forall posts,
    (forall i, (i < length queries)%nat ->
               search_fails (search_provider w (posts + i) (nth i queries "") 3)) ->
    loop_successes w posts queries = 0.
Proof.
  induction queries as [|q rest IH]; intros posts Hall; cbn [loop_successes]; [reflexivity|].
  rewrite IH.
  - pose proof (Hall 0%nat ltac:(cbn; lia)) as H0.
    rewrite Nat.add_0_r in H0; cbn [nth] in H0.
    destruct (run_value_fails q _ H0) as [(err & Hv & Hc)|(e & Hv)]; rewrite Hv;
      [rewrite Hc|]; reflexivity.
  - intros i Hi.
    replace (S posts + i)%nat with (posts + S i)%nat by lia.
    apply (Hall (S i)); cbn; lia.
Qed.

(** The searching stage appends exactly one message, which reports four
    searches and a success count between 0 and 4; the count is 0 when every
    variant fails (a status other than 200, or an exception). *)
Theorem searcher_reports_success_count
  (w : world) (self : ResearchGraph) (state : ResearchState) (s : effects) :
  exists state' s' n,
    _web_searcher_node w self state s = (Return state', s') /\
    messages state' =
      (messages state ++
       [AIMessage ("Completed 4 searches (" ++ str_of_int n ++ " successful) for: "
                   ++ topic state)])%list /\
    0 <= n <= 4 /\
    ((forall i, (i < 4)%nat ->
                search_fails (variant_outcome w s i (nth i (search_queries (topic state)) ""))) ->
     n = 0).
Proof.
  rewrite searcher_spec.
  exists (searcher_result w (search_posts s) state),
         (after_searches s (search_queries (topic state))),
         (loop_successes w (search_posts s) (search_queries (topic state))).
  split; [reflexivity|]; split; [reflexivity|]; split.
  - apply (loop_successes_bounds w (search_queries (topic state))).
  - intros Hall; apply loop_successes_all_fail; exact Hall.
Qed.

Lemma searcher_reports_success_count_witness :
  exists state' s',
    _web_searcher_node (failing_world timed_out) the_graph (initial_state "X") no_effects
    = (Return state', s') /\
    messages state' = [HumanMessage "Research topic: X";
                       AIMessage "Completed 4 searches (0 successful) for: X"].
Proof.
  destruct (searcher_reports_success_count (failing_world timed_out) the_graph
              (initial_state "X") no_effects) as (state' & s' & n & Hrun & Hmsgs & _ & Hzero).
  exists state', s'; split; [exact Hrun|].
  rewrite Hmsgs, Hzero; [reflexivity|].
  intros i Hi; destruct i as [|[|[|[|i]]]]; try lia; intros H; discriminate H.
Defined.

(** The success test reads the text: a variant answered 200 whose summary
    holds "Error:" is given its section like any other answer, but is not
    counted as successful. *)
Theorem summary_with_marker_is_not_counted
  (w : world) (self : ResearchGraph) (i : Z) (query : string) (acc : list string * Z)
  (s : effects) (r : response tavily_data) (data : tavily_data) (summary : string) :
  search_provider w (search_posts s) query 3 = Responded r ->
  status_code r = 200 ->
  json_body r = Return data ->
  (forall src, In src (results data) -> content src <> Null) ->
  answer data = Text summary ->
  contains "Error:" summary = true ->
  exists result,
    fst (try_with (search_try w self i query acc) (search_except i query acc) s) =
    Return (List.app (fst acc)
              [ "### Search Query " ++ str_of_int (i + 1) ++ ": '" ++ query ++ "'" ++ nl
                ++ result ++ nl ],
            snd acc) /\
    prefix (format_header query data) result = true.
Proof.
  intros Ho Hs Hb Hok Ha Hc.
  destruct (format_sources_extends (results data) 1 (format_header query data) Hok)
    as [rest Hrest].
  exists (format_header query data ++ rest); split; [|apply prefix_app].
  rewrite search_iteration.
  assert (Hvalue : run_value query (search_provider w (search_posts s) query 3) =
                   Return (format_header query data ++ rest)).
  { unfold run_value, run_body; rewrite Ho, Hs, Hb; cbn [Z.eqb Pos.eqb and_then].
    rewrite Hrest; reflexivity. }
  rewrite Hvalue; cbn [fst section_text].
  assert (Hmarked : contains "Error:" (format_header query data ++ rest) = true).
  { apply contains_app_l; unfold format_header; rewrite Ha; cbn [get_str].
    do 9 apply contains_app_r.
    apply contains_app_l; exact Hc. }
  rewrite Hmarked; cbn [negb]; rewrite Z.add_0_r; reflexivity.
Qed.

Lemma summary_with_marker_is_not_counted_witness :
  exists result,
    fst (try_with
           (search_try
              (mk_world (fun _ _ => timed_out)
                 (fun _ _ _ => ok_response (mk_tavily_data (Text "HTTP Error: 404 pages") [])))
              the_graph 0 "X" ([], 0))
           (search_except 0 "X" ([], 0)) no_effects)
    = Return ([ "### Search Query 1: 'X'" ++ nl ++ result ++ nl ], 0).
Proof.
  destruct (summary_with_marker_is_not_counted
              (mk_world (fun _ _ => timed_out)
                 (fun _ _ _ => ok_response (mk_tavily_data (Text "HTTP Error: 404 pages") [])))
              the_graph 0 "X" ([], 0) no_effects
              (mk_response 200 "" (Return (mk_tavily_data (Text "HTTP Error: 404 pages") [])))
              (mk_tavily_data (Text "HTTP Error: 404 pages") [])
              "HTTP Error: 404 pages" eq_refl eq_refl eq_refl
              (fun src H => match H with end) eq_refl eq_refl)
    as (result & Hrun & _).
  exists result; exact Hrun.
Defined.

(** ** The whole run *)

Lemma llm_invoke_effects (w : world) (self : LMStudioLLM) (prompt : string) (s : effects) :
  snd (llm_invoke w self prompt s) = snd (_call w self prompt s).
Proof.
  rewrite llm_invoke_outcome.
  destruct (_call w self prompt s) as [[v|e] s']; [destruct v|]; reflexivity.
Qed.

Lemma posts_after_searches (s : effects) (queries : list string) :
  llm_posts (after_searches s queries) = llm_posts s /\
  search_posts (after_searches s queries) = (search_posts s + length queries)%nat.
Proof.
  revert s; induction queries as [|q rest IH]; intros s; cbn [after_searches fold_left length].
  - split; [reflexivity | lia].
  - fold (after_searches (after_search s q) rest).
    destruct (IH (after_search s q)) as [Hl Hs]; rewrite Hl, Hs; cbn; split; [reflexivity | lia].
Qed.

Lemma research_topic_spec (mode : channel_read) (w : world) (self : ResearchGraph)
  (the_topic : string) (s : effects) :
  let r := llm_invoke w (llm self) (planner_prompt the_topic) s in
  research_topic mode w self the_topic s =
  (Return (Result.mk
             (research_plan (planner_result (write_input (initial_state the_topic)) (fst r)))
             (join nl (loop_sections w (search_posts s) 0 (search_queries the_topic)))
             (error (planner_result (write_input (initial_state the_topic)) (fst r)))),
   after_searches (snd r) (search_queries the_topic)).
Proof.
  cbv zeta; unfold research_topic, try_with, bind.
  rewrite invoke_spec; cbv zeta; unfold ret; cbn [initial_state topic].
  destruct (fst (llm_invoke w (llm self) (planner_prompt the_topic) s)); destruct mode;
    reflexivity.
Qed.

(** The [error] of the returned record comes from the planning stage alone: it
    is null whenever the completion client returned a text (an error text
    included) and holds the exception otherwise.  Failures of the search
    provider never reach it, and the handler of [research_topic] itself is
    never taken. *)
Theorem research_topic_error_from_planner_only
  (mode : channel_read) (w : world) (self : ResearchGraph) (the_topic : string) :
  exists r eff,
    research_topic mode w self the_topic no_effects = (Return r, eff) /\
    Result.error r =
      match fst (llm_invoke w (llm self) (planner_prompt the_topic) no_effects) with
      | Return _ => None
      | Raise e => Some ("Error in research planning: " ++ exn_str e)
      end /\
    ((forall k, (k < Z.to_nat (max_retries (llm self)))%nat ->
                handled (completion_endpoint w k (planner_prompt the_topic)) = true) ->
     Result.error r = None).
Proof.
  rewrite research_topic_spec; cbv zeta.
  eexists; eexists; split; [reflexivity|]; cbn [Result.error].
  split.
  - destruct (fst (llm_invoke w (llm self) (planner_prompt the_topic) no_effects));
      reflexivity.
  - intros Hall.
    destruct (call_loop_handled w (llm self) (planner_prompt the_topic) _ 0 no_effects Hall)
      as (str & s' & Hcall).
    fold (_call w (llm self) (planner_prompt the_topic)) in Hcall.
    rewrite llm_invoke_outcome, Hcall; reflexivity.
Qed.

Lemma research_topic_error_from_planner_only_witness :
  exists r eff,
    research_topic SharedObject (failing_world timed_out) the_graph "X" no_effects
    = (Return r, eff) /\
    Result.error r = None.
Proof.
  destruct (research_topic_error_from_planner_only SharedObject (failing_world timed_out)
              the_graph "X") as (r & eff & Hrun & _ & Hnone).
  exists r, eff; split; [exact Hrun|].
  apply Hnone; intros k _; reflexivity.
Defined.

(** The requests of a run: first the attempts of the completion client on the
    planning prompt, at most [max_retries] of them with their backoff sleeps,
    then exactly the four searches, in order; nothing else. *)
Theorem research_topic_requests
  (mode : channel_read) (w : world) (self : ResearchGraph) (the_topic : string) :
  exists r eff planning,
    research_topic mode w self the_topic no_effects = (Return r, eff) /\
    log eff = (planning ++ map SearchPost (search_queries the_topic))%list /\
    Forall (fun e => e = LlmPost (planner_prompt the_topic) \/
                     exists i, 0 <= i < max_retries (llm self) - 1 /\ e = Sleep (2 ^ i))
           planning /\
    (llm_posts eff <= Z.to_nat (max_retries (llm self)))%nat /\
    search_posts eff = 4%nat.
Proof.
  rewrite research_topic_spec; cbv zeta.
  destruct (call_added w (llm self) (planner_prompt the_topic) no_effects)
    as (added & Hlog & Hall & _).
  eexists; eexists; exists added; split; [reflexivity|].
  rewrite log_after_searches, llm_invoke_effects, Hlog.
  split; [reflexivity|]; split; [exact Hall|].
  destruct (posts_after_searches (snd (_call w (llm self) (planner_prompt the_topic) no_effects))
              (search_queries the_topic)) as [Hl Hs].
  rewrite Hl, Hs; split.
  - apply (call_loop_posts w (llm self) (planner_prompt the_topic) _ 0 no_effects).
  - unfold _call; rewrite call_loop_search_posts; reflexivity.
Qed.

(** The plan depends on the completion endpoint alone and the search results
    on the search provider alone: two worlds with the same completion endpoint
    give the same plan and error whatever their search providers, and two
    worlds with the same search provider give the same search results whatever
    their completion endpoints. *)
Theorem research_topic_stages_do_not_interfere
  (mode : channel_read) (self : ResearchGraph) (the_topic : string) (w1 w2 : world) :
  exists r1 r2 eff1 eff2,
    research_topic mode w1 self the_topic no_effects = (Return r1, eff1) /\
    research_topic mode w2 self the_topic no_effects = (Return r2, eff2) /\
    ((forall k p, completion_endpoint w1 k p = completion_endpoint w2 k p) ->
     Result.research_plan r1 = Result.research_plan r2 /\
     Result.error r1 = Result.error r2) /\
    ((forall k q m, search_provider w1 k q m = search_provider w2 k q m) ->
     Result.search_results r1 = Result.search_results r2).
Proof.
  rewrite !research_topic_spec; cbv zeta.
  eexists; eexists; eexists; eexists; split; [reflexivity|]; split; [reflexivity|].
  cbn [Result.research_plan Result.error Result.search_results]; split.
  - intros Hsame.
    assert (Hinvoke :
      llm_invoke w1 (llm self) (planner_prompt the_topic) no_effects =
      llm_invoke w2 (llm self) (planner_prompt the_topic) no_effects).
    { rewrite !llm_invoke_outcome; unfold _call.
      rewrite (call_loop_ext w1 w2 (llm self) (planner_prompt the_topic) _ 0 no_effects);
        [reflexivity|].
      intros k _; apply Hsame. }
    rewrite Hinvoke; split; reflexivity.
  - intros Hsame.
    destruct (search_loop_ext w1 w2 (search_queries the_topic) 0 0) as [Hsec _].
    + intros k _; apply Hsame.
    + cbn [search_posts no_effects]; rewrite Hsec; reflexivity.
Qed.

Lemma research_topic_stages_do_not_interfere_witness :
  exists r1 r2 eff1 eff2,
    research_topic SharedObject one_success_world the_graph "X" no_effects = (Return r1, eff1) /\
    research_topic SharedObject (answering_world (JStr "PLAN")) the_graph "X" no_effects
    = (Return r2, eff2) /\
    Result.research_plan r1 = Result.research_plan r2.
Proof.
  destruct (research_topic_stages_do_not_interfere SharedObject the_graph "X"
              one_success_world (answering_world (JStr "PLAN")))
    as (r1 & r2 & eff1 & eff2 & H1 & H2 & Hplan & _).
  exists r1, r2, eff1, eff2; split; [exact H1|]; split; [exact H2|].
  apply Hplan; intros k p; reflexivity.
Defined.

(** ** The error marker *)

Lemma lower_app (a b : string) : lower (a ++ b) = lower a ++ lower b.
Proof. induction a as [|c a IH]; cbn [append lower]; [reflexivity | rewrite IH; reflexivity]. Qed.

(** The timeout phrase is matched whatever its letter case, and anywhere in the
    text: a completion that holds any casing of "timed out" is replaced by the
    fallback plan. *)
Theorem timed_out_marker_ignores_case
  (state : ResearchState) (before phrase after : string) :
  lower phrase = "timed out" ->
  has_error_marker (before ++ phrase ++ after) = true /\
  research_plan (planner_result state (Return (before ++ phrase ++ after)))
  = fallback_plan (topic state).
Proof.
  intros Hphrase.
  assert (Hmarker : has_error_marker (before ++ phrase ++ after) = true).
  { unfold has_error_marker; apply orb_true_iff; right.
    rewrite !lower_app, Hphrase.
    apply contains_app_r, contains_starts. }
  split; [exact Hmarker|].
  cbn [planner_result]; rewrite Hmarker; reflexivity.
Qed.

Lemma timed_out_marker_ignores_case_witness :
  has_error_marker "The request Timed Out, sorry." = true.
Proof.
  apply (proj1 (timed_out_marker_ignores_case (initial_state "X")
                  "The request " "Timed Out" ", sorry." eq_refl)).
Defined.

(** The text [_call] builds for a request exception other than a timeout or a
    connection failure starts with "Error connecting", not with "Error:": it
    carries a marker only if the exception's own message does. *)
Lemma connecting_text_marker (message : string) :
  has_error_marker ("Error connecting to LM Studio: " ++ message) = has_error_marker message.
Proof.
  unfold has_error_marker.
  change (lower ("Error connecting to LM Studio: " ++ message))
    with ("error connecting to lm studio: " ++ lower message).
  f_equal; cbn [append contains prefix]; cbn; reflexivity.
Qed.

(** When the last attempt ends in a request exception other than a timeout or
    a connection failure, and its message holds no marker, the planning stage
    does not recognise the client's text as an error: the text "Error
    connecting to LM Studio: ..." itself becomes the research plan, and [error]
    is left as it was. *)
Theorem request_exception_text_becomes_the_plan
  (w : world) (self : ResearchGraph) (state : ResearchState) (s : effects)
  (n : nat) (e : exn) :
  max_retries (llm self) = Z.of_nat (S n) ->
  (forall i, (i < n)%nat ->
             retryable (completion_endpoint w (llm_posts s + i) (planner_prompt (topic state)))
             = true) ->
  completion_endpoint w (llm_posts s + n) (planner_prompt (topic state)) = Failed e ->
  class_of e = RequestException ->
  has_error_marker (exn_str e) = false ->
  exists state' s',
    _research_planner_node w self state s = (Return state', s') /\
    research_plan state' = "Error connecting to LM Studio: " ++ exn_str e /\
    error state' = error state.
Proof.
  intros Hmax Hretry Hlast Hclass Hmarker.
  pose proof (call_loop_exhaust w (llm self) (planner_prompt (topic state)) n 0 s
                ltac:(lia) Hretry) as Hcall.
  rewrite Hlast in Hcall.
  unfold attempt_value, attempt_body, attempt_except in Hcall.
  rewrite Hclass, Z.eqb_refl in Hcall.
  rewrite planner_spec, llm_invoke_outcome; unfold _call.
  rewrite Hmax, Nat2Z.id.
  destruct (call_loop w (llm self) (planner_prompt (topic state)) (S n) 0 s) as [res s'].
  cbn [fst] in Hcall; subst res; cbn [fst snd planner_result].
  rewrite connecting_text_marker, Hmarker.
  eexists; eexists; split; [reflexivity|]; split; reflexivity.
Qed.

Lemma request_exception_text_becomes_the_plan_witness :
  exists state' s',
    _research_planner_node
      (failing_world (Failed (mk_exn RequestException "Exceeded 30 redirects.")))
      the_graph (initial_state "X") no_effects = (Return state', s') /\
    research_plan state' = "Error connecting to LM Studio: Exceeded 30 redirects." /\
    error state' = None.
Proof.
  apply (request_exception_text_becomes_the_plan
           (failing_world (Failed (mk_exn RequestException "Exceeded 30 redirects.")))
           the_graph (initial_state "X") no_effects 2
           (mk_exn RequestException "Exceeded 30 redirects.")
           eq_refl (fun i _ => eq_refl) eq_refl eq_refl eq_refl).
Defined.

(** When the first attempt is answered 200 with a text that holds no marker,
    the run makes that one POST to the completion endpoint, without any sleep,
    then the four searches; the plan it returns is the text, unchanged, and
    [error] is null. *)
Theorem research_topic_passes_completion_through
  (mode : channel_read) (w : world) (self : ResearchGraph) (the_topic : string)
  (r : response json) (body : json) (completion : string) :
  0 < max_retries (llm self) ->
  completion_endpoint w 0 (planner_prompt the_topic) = Responded r ->
  status_code r = 200 ->
  json_body r = Return body ->
  message_content body = Return (JStr completion) ->
  has_error_marker completion = false ->
  exists res eff,
    research_topic mode w self the_topic no_effects = (Return res, eff) /\
    Result.research_plan res = completion /\
    Result.error res = None /\
    log eff = (LlmPost (planner_prompt the_topic)
               :: map SearchPost (search_queries the_topic))%list.
Proof.
  intros Hpos Ho Hs Hb Hm Hmarker.
  assert (Hcall : _call w (llm self) (planner_prompt the_topic) no_effects =
                  (Return (JStr completion),
                   mk_effects 1 0 [LlmPost (planner_prompt the_topic)])).
  { unfold _call.
    apply (call_loop_schedule w (llm self) (planner_prompt the_topic) r body (JStr completion)
             0 _ 0 no_effects); try assumption; lia. }
  rewrite research_topic_spec; cbv zeta.
  rewrite llm_invoke_outcome, Hcall; cbn [fst snd planner_result].
  rewrite Hmarker.
  eexists; eexists; split; [reflexivity|].
  split; [reflexivity|]; split; [reflexivity|].
  rewrite log_after_searches; reflexivity.
Qed.

Lemma research_topic_passes_completion_through_witness :
  exists res eff,
    research_topic SharedObject (answering_world (JStr "PLAN")) the_graph "X" no_effects
    = (Return res, eff) /\
    Result.research_plan res = "PLAN" /\ Result.error res = None.
Proof.
  destruct (research_topic_passes_completion_through SharedObject
              (answering_world (JStr "PLAN")) the_graph "X"
              (mk_response 200 "" (Return (completion_body (JStr "PLAN"))))
              (completion_body (JStr "PLAN")) "PLAN"
              eq_refl eq_refl eq_refl eq_refl eq_refl eq_refl)
    as (res & eff & Hrun & Hplan & Herr & _).
  exists res, eff; split; [exact Hrun|]; split; [exact Hplan | exact Herr].
Defined.

(** ** test_connections *)

Lemma test_tavily_outcome (w : world) (tavily_key : string) (s : effects) :
  test_tavily w tavily_key s =
  if truthy tavily_key then
    (Return match run_value "hello world test"
                    (search_provider w (search_posts s) "hello world test" 1) with
            | Return test_result => negb (contains "Error:" test_result)
            | Raise _ => false
            end,
     after_search s "hello world test")
  else (Return false, s).
Proof.
  unfold test_tavily; destruct (truthy tavily_key); [|reflexivity].
  unfold try_with, bind; rewrite run_outcome.
  destruct (run_value "hello world test"
              (search_provider w (search_posts s) "hello world test" 1)); reflexivity.
Qed.

Lemma test_lm_studio_outcome (w : world) (lm_studio_url model_name : string) (s : effects) :
  let test_llm := mk_LMStudioLLM lm_studio_url model_name 2000 30 3 in
  test_lm_studio w lm_studio_url model_name s =
  (Return match fst (llm_invoke w test_llm "Say 'Hello'" s) with
          | Return test_response =>
              (negb (contains "Error:" test_response)
               && negb (contains "timed out" (lower test_response)))%bool
          | Raise _ => false
          end,
   snd (llm_invoke w test_llm "Say 'Hello'" s)).
Proof.
  cbv zeta; unfold test_lm_studio, try_with, bind.
  destruct (llm_invoke w (mk_LMStudioLLM lm_studio_url model_name 2000 30 3) "Say 'Hello'" s)
    as [[t|e] s']; reflexivity.
Qed.

(** [test_connections] never raises, whatever the two services do; it makes at
    most one search POST and at most three completion POSTs; and with an empty
    key it makes no search POST at all and reports the search provider down. *)
Theorem test_connections_returns_and_is_bounded
  (w : world) (tavily_key lm_studio_url model_name : string) (s : effects) :
  exists status s',
    test_connections w tavily_key lm_studio_url model_name s = (Return status, s') /\
    (search_posts s' <= search_posts s + 1)%nat /\
    (llm_posts s' <= llm_posts s + 3)%nat /\
    (tavily_key = "" -> tavily status = false /\ search_posts s' = search_posts s).
Proof.
  unfold test_connections, bind.
  rewrite test_tavily_outcome.
  assert (Hllm : forall s0,
    exists flag s1,
      test_lm_studio w lm_studio_url model_name s0 = (Return flag, s1) /\
      search_posts s1 = search_posts s0 /\
      (llm_posts s1 <= llm_posts s0 + 3)%nat).
  { intros s0; rewrite test_lm_studio_outcome; cbv zeta.
    eexists; eexists; split; [reflexivity|].
    rewrite llm_invoke_effects; split.
    - unfold _call; apply call_loop_search_posts.
    - apply (call_loop_posts w (mk_LMStudioLLM lm_studio_url model_name 2000 30 3)
               "Say 'Hello'" 3 0 s0). }
  destruct (truthy tavily_key) eqn:Hkey.
  - destruct (Hllm (after_search s "hello world test")) as (flag & s1 & Hrun & Hs & Hl).
    rewrite Hrun; unfold ret; eexists; eexists; split; [reflexivity|].
    cbn [after_search search_posts llm_posts] in Hs, Hl.
    split; [lia|]; split; [lia|].
    intros Hempty; subst tavily_key; discriminate Hkey.
  - destruct (Hllm s) as (flag & s1 & Hrun & Hs & Hl).
    rewrite Hrun; unfold ret; eexists; eexists; split; [reflexivity|].
    split; [lia|]; split; [lia|].
    intros _; split; [reflexivity | exact Hs].
Qed.

Lemma test_connections_returns_and_is_bounded_witness :
  exists status s',
    test_connections (answering_world (JStr "Hello")) "" "http://localhost:1234/v1"
      "google/gemma-3-1b" no_effects = (Return status, s') /\
    tavily status = false /\ search_posts s' = 0%nat.
Proof.
  destruct (test_connections_returns_and_is_bounded (answering_world (JStr "Hello")) ""
              "http://localhost:1234/v1" "google/gemma-3-1b" no_effects)
    as (status & s' & Hrun & _ & _ & Hempty).
  exists status, s'; split; [exact Hrun|].
  apply Hempty; reflexivity.
Defined.

Lemma plain_failure_retryable (o : outcome json) : plain_failure o = true -> retryable o = true.
Proof.
  destruct o as [r|e]; cbn [plain_failure retryable]; [auto|].
  destruct (class_of e); cbn; auto.
Qed.

Lemma plain_failure_text (self : LMStudioLLM) (o : outcome json) :
  plain_failure o = true ->
  exists rest,
    attempt_value self (max_retries self - 1) o = Return (Exit (JStr ("Error:" ++ rest))).
Proof.
  unfold attempt_value, attempt_body, attempt_except.
  destruct o as [r|e]; cbn [plain_failure].
  - intros Hs; apply negb_true_iff in Hs; rewrite Hs, Z.eqb_refl; eexists; reflexivity.
  - destruct (class_of e); try discriminate; intros _; rewrite Z.eqb_refl;
      eexists; reflexivity.
Qed.

(** The flags follow the failures: the search flag is false whenever the
    provider's answer to the probe is a status other than 200 or the POST
    raises, and true only if the provider answered 200; the completion flag is
    false whenever each of the three attempts ends in a failure status, a
    timeout or a connection failure. *)
Theorem test_connections_flags_failures
  (w : world) (tavily_key lm_studio_url model_name : string) (s : effects) :
  exists status s',
    test_connections w tavily_key lm_studio_url model_name s = (Return status, s') /\
    (search_fails (search_provider w (search_posts s) "hello world test" 1) ->
     tavily status = false) /\
    (tavily status = true ->
     tavily_key <> "" /\
     exists r, search_provider w (search_posts s) "hello world test" 1 = Responded r /\
               status_code r = 200) /\
    ((forall k, (k < 3)%nat ->
                plain_failure (completion_endpoint w (llm_posts s + k) "Say 'Hello'") = true) ->
     lm_studio status = false).
Proof.
  unfold test_connections, bind.
  rewrite test_tavily_outcome.
  set (probe := search_provider w (search_posts s) "hello world test" 1).
  set (s0 := if truthy tavily_key then after_search s "hello world test" else s).
  assert (Hposts : llm_posts s0 = llm_posts s)
    by (subst s0; destruct (truthy tavily_key); reflexivity).
  assert (Hlm : (forall k, (k < 3)%nat ->
                   plain_failure (completion_endpoint w (llm_posts s + k) "Say 'Hello'") = true) ->
                fst (test_lm_studio w lm_studio_url model_name s0) = Return false).
  { intros Hall; rewrite test_lm_studio_outcome; cbv zeta; cbn [fst].
    pose proof (call_loop_exhaust w (mk_LMStudioLLM lm_studio_url model_name 2000 30 3)
                  "Say 'Hello'" 2 0 s0 eq_refl) as Hcall.
    rewrite Hposts in Hcall.
    destruct (plain_failure_text (mk_LMStudioLLM lm_studio_url model_name 2000 30 3) _
                (Hall 2%nat ltac:(lia))) as [rest Hrest].
    rewrite Hrest in Hcall.
    specialize (Hcall (fun i Hi => plain_failure_retryable _ (Hall i ltac:(lia)))).
    rewrite llm_invoke_outcome; unfold _call.
    change (Z.to_nat (max_retries (mk_LMStudioLLM lm_studio_url model_name 2000 30 3)))
      with 3%nat.
    destruct (call_loop w (mk_LMStudioLLM lm_studio_url model_name 2000 30 3) "Say 'Hello'" 3 0 s0)
      as [res s1].
    cbn [fst] in Hcall; subst res; cbn [fst].
    rewrite (contains_starts "Error:" rest); reflexivity. }
  assert (Hreturns : exists flag s1,
            test_lm_studio w lm_studio_url model_name s0 = (Return flag, s1)).
  { rewrite test_lm_studio_outcome; cbv zeta; eexists; eexists; reflexivity. }
  destruct Hreturns as (flag & s1 & Hrun).
  rewrite Hrun in Hlm; cbn [fst] in Hlm.
  destruct (truthy tavily_key) eqn:Hkey; subst s0; rewrite Hrun; unfold ret;
    eexists; eexists; (split; [reflexivity|]); cbn [tavily lm_studio].
  - split; [|split].
    + intros Hfail.
      destruct (run_value_fails "hello world test" probe Hfail) as [(err & Hv & Hc)|(e & Hv)];
        rewrite Hv; [rewrite Hc|]; reflexivity.
    + intros Htrue; split.
      * intros Hempty; subst tavily_key; discriminate Hkey.
      * unfold run_value, run_body in Htrue.
        destruct probe as [r|e].
        -- exists r; split; [reflexivity|].
           destruct (status_code r =? 200) eqn:Hs; [apply Z.eqb_eq; exact Hs|].
           discriminate Htrue.
        -- destruct (is_request_exception (class_of e)); discriminate Htrue.
    + intros Hall; specialize (Hlm Hall); inversion Hlm; reflexivity.
  - split; [reflexivity|]; split; [discriminate|].
    intros Hall; specialize (Hlm Hall); inversion Hlm; reflexivity.
Qed.

Lemma test_connections_flags_failures_witness :
  exists status s',
    test_connections (failing_world timed_out) "tvly-key" "http://localhost:1234/v1"
      "google/gemma-3-1b" no_effects = (Return status, s') /\
    tavily status = false /\ lm_studio status = false.
Proof.
  destruct (test_connections_flags_failures (failing_world timed_out) "tvly-key"
              "http://localhost:1234/v1" "google/gemma-3-1b" no_effects)
    as (status & s' & Hrun & Htavily & _ & Hlm).
  exists status, s'; split; [exact Hrun|]; split.
  - apply Htavily; intros H; discriminate H.
  - apply Hlm; intros k _; reflexivity.
Defined.

(** ** The shape of a completion body, and plain failures *)

(** Line 83 yields a value exactly when the decoded body is an object whose
    [choices] is a non-empty list, whose first element is an object whose
    [message] is an object with a [content] key; the value is that content.
    Later choices and other keys are not looked at. *)
Theorem message_content_shape (body v : json) :
  message_content body = Return v <->
  exists members cm mm rest,
    body = JObj members /\
    assoc "choices" members = Some (JArr (JObj cm :: rest)) /\
    assoc "message" cm = Some (JObj mm) /\
    assoc "content" mm = Some v.
Proof.
  split.
  - unfold message_content.
    destruct body as [| | | | |members]; try discriminate.
    cbn [subscript_key].
    destruct (assoc "choices" members) as [choices|] eqn:H1; [|discriminate].
    cbn [and_then].
    destruct choices as [| | |str|items|m']; try discriminate; cbn [subscript_0].
    + destruct str; discriminate.
    + destruct items as [|first rest]; [discriminate|].
      cbn [and_then].
      destruct first as [| | | | |cm]; try discriminate.
      cbn [subscript_key].
      destruct (assoc "message" cm) as [msg|] eqn:H2; [|discriminate].
      cbn [and_then].
      destruct msg as [| | | | |mm]; try discriminate.
      cbn [subscript_key].
      destruct (assoc "content" mm) as [c|] eqn:H3; [|discriminate].
      intros H; inversion H; subst.
      exists members, cm, mm, rest; auto.
  - intros (members & cm & mm & rest & -> & H1 & H2 & H3).
    unfold message_content; cbn [subscript_key]; rewrite H1; cbn [and_then subscript_0 subscript_key].
    rewrite H2; cbn [and_then subscript_key]; rewrite H3; reflexivity.
Qed.

Lemma message_content_shape_witness :
  message_content
    (JObj [("id", JStr "chatcmpl-1");
           ("choices", JArr [JObj [("index", JNum 0);
                                   ("message", JObj [("role", JStr "assistant");
                                                     ("content", JStr "first")])];
                             JObj [("message", JObj [("content", JStr "second")])]])])
  = Return (JStr "first").
Proof.
  apply (proj2 (message_content_shape _ (JStr "first"))).
  eexists; eexists; eexists; eexists; split; [reflexivity|].
  split; [reflexivity|]; split; reflexivity.
Defined.




(** * The claims on the facade and on the shape of the completion body *)

(** ** C1 *)




(** ** C3 *)




